(** * dsdk/connection.go: the session, the request pipeline, the parameter
      encoder and the response classifier of the Datera Go SDK.

    The Go code is embedded shallowly.  Go strings are byte strings and are
    modelled by [string]; Go maps by [gmap]; the mutable session by a record
    threaded through a small outcome-and-state monad; the standard library
    routines the package calls but does not define (encoding/json,
    text/template, net/http, the UUID helper) are the fields of the class
    [GoLib], so every theorem holds for each implementation of them. *)

From Stdlib Require Import String Ascii ZArith Bool List Lia.
From stdpp Require Import base option list gmap strings.
Import ListNotations.

Set Warnings "-register-all".

Local Open Scope string_scope.
Local Open Scope Z_scope.

(** ** The package [strings] *)

Module GoStrings.

(** [strings.Split(s, sep)] for a one-byte separator: the pieces between
    the occurrences of [sep]; never the empty list. *)
Fixpoint Split (s : string) (sep : ascii) : list string :=
  match s with
  | EmptyString => [EmptyString]
  | String a s' =>
      if Ascii.eqb a sep then EmptyString :: Split s' sep
      else match Split s' sep with
           | x :: xs => String a x :: xs
           | [] => [String a EmptyString]
           end
  end.

Fixpoint HasPrefix (s p : string) {struct p} : bool :=
  match p, s with
  | EmptyString, _ => true
  | String b p', String a s' => Ascii.eqb a b && HasPrefix s' p'
  | String _ _, EmptyString => false
  end.

(** [strings.Contains(s, substr)]. *)
Fixpoint Contains (s sub : string) : bool :=
  HasPrefix s sub ||
  match s with
  | EmptyString => false
  | String _ s' => Contains s' sub
  end.

(** [strings.Count(s, sep)] for a one-byte separator. *)
Fixpoint Count (s : string) (sep : ascii) : nat :=
  match s with
  | EmptyString => 0%nat
  | String a s' => ((if Ascii.eqb a sep then 1 else 0) + Count s' sep)%nat
  end.

(** [strings.Join(elems, sep)]. *)
Fixpoint Join (elems : list string) (sep : string) : string :=
  match elems with
  | [] => EmptyString
  | [x] => x
  | x :: rest => x ++ sep ++ Join rest sep
  end.

Fixpoint TrimLeft (s : string) (c : ascii) : string :=
  match s with
  | String a s' => if Ascii.eqb a c then TrimLeft s' c else s
  | EmptyString => EmptyString
  end.

(** Drops the trailing run of [c]. *)
Fixpoint TrimRight (s : string) (c : ascii) : string :=
  match s with
  | EmptyString => EmptyString
  | String a s' =>
      match TrimRight s' c with
      | EmptyString => if Ascii.eqb a c then EmptyString else String a EmptyString
      | t => String a t
      end
  end.

(** [strings.Trim(s, cutset)] for a one-byte cutset. *)
Definition Trim (s : string) (c : ascii) : string := TrimRight (TrimLeft s c) c.

Definition lower (a : ascii) : ascii :=
  let n := N_of_ascii a in
  if ((65 <=? n) && (n <=? 90))%N then ascii_of_N (n + 32) else a.

(** [strings.ToLower] on the ASCII letters.  The only other code points Go
    lower-cases to ASCII are U+212A and U+0130 (to k and i), letters that
    occur in none of the four verbs the pipeline compares against. *)
Fixpoint ToLower (s : string) : string :=
  match s with
  | EmptyString => EmptyString
  | String a s' => String (lower a) (ToLower s')
  end.

End GoStrings.

(** ** The package [net/url] *)

Module url.

Definition hexdigit (n : N) : ascii :=
  if (n <? 10)%N then ascii_of_N (48 + n) else ascii_of_N (55 + n).

(** The bytes [QueryEscape] leaves alone: letters, digits and [-_.~]. *)
Definition unreserved (a : ascii) : bool :=
  let n := N_of_ascii a in
  ((48 <=? n) && (n <=? 57) || (65 <=? n) && (n <=? 90) ||
   (97 <=? n) && (n <=? 122) ||
   (n =? 45) || (n =? 95) || (n =? 46) || (n =? 126))%N.

Definition escape_byte (a : ascii) : string :=
  if unreserved a then String a EmptyString
  else if (N_of_ascii a =? 32)%N then "+"
  else String "%" (String (hexdigit (N_of_ascii a / 16))
                  (String (hexdigit (N_of_ascii a mod 16)) EmptyString)).

(** [url.QueryEscape]: a space becomes [+], every other byte that is not
    unreserved becomes [%XX] in upper-case hexadecimal. *)
Fixpoint QueryEscape (s : string) : string :=
  match s with
  | EmptyString => EmptyString
  | String a s' => escape_byte a ++ QueryEscape s'
  end.

End url.

(** ** Values of type [interface{}] *)

Inductive Value : Type :=
| VNil
| VString (s : string)
| VBool (b : bool)
| VInt (n : Z)
| VList (l : list Value)
| VMapString (m : gmap string string)      (* map[string]string *)
| VMap (m : gmap string Value).            (* map[string]interface{} *)

(** ** Errors, panics and outcomes *)

(** Values of type [error]; [nil] is [None] in an [option error].  Go
    compares errors by identity, so the sentinel [Retry] differs from every
    error made at another place, whatever its text. *)
Inductive error : Type :=
| Retry                                   (* Retry = fmt.Errorf("Retry") *)
| ErrStatus (status : string)             (* fmt.Errorf("%s", resp.Status) *)
| ErrMessage (msg : string)               (* fmt.Errorf("%s", e.Message) *)
| ErrNoToken (resp : string)              (* "No Api Token In Response: %s" *)
| ErrParseParams (params : list Value)    (* "Couldn't Parse Params: %s" *)
| ErrArgNotFound (fstring k : string)     (* "Could not find arg: ..." *)
| ErrLib (origin : string).               (* an error a library call returned *)

Definition is_Retry (e : option error) : bool :=
  match e with Some Retry => true | _ => false end.

Inductive panic : Type :=
| PanicMsg (msg : string)                 (* panic("...") *)
| PanicIndex (i len : nat)                (* index out of range [i] with length len *)
| PanicTypeAssert (v : Value)             (* v.(string) on another dynamic type *)
| PanicNilDeref.                          (* field of a nil pointer *)

(** How a call ends.  [Crashed] is the runtime's fatal error on unlocking a
    mutex that is not locked; [Blocked] is [Lock] on a mutex already held,
    which never returns in a sequential run. *)
Inductive outcome (A : Type) : Type :=
| Returned (a : A)
| Panicked (p : panic)
| Crashed
| Blocked
| OutOfFuel.

Arguments Returned {A} a.
Arguments Panicked {A} p.
Arguments Crashed {A}.
Arguments Blocked {A}.
Arguments OutOfFuel {A}.

Definition obind {A B} (o : outcome A) (k : A -> outcome B) : outcome B :=
  match o with
  | Returned a => k a
  | Panicked p => Panicked p
  | Crashed => Crashed
  | Blocked => Blocked
  | OutOfFuel => OutOfFuel
  end.

Definition returns {A} (o : outcome A) : bool :=
  match o with Returned _ => true | _ => false end.

(** ** Data of the package *)

Definition connTemplate : string :=
  "http://{{.hostname}}:{{.port}}/v{{.version}}/{{.endpoint}}".
Definition secConnTemplate : string :=
  "https://{{.hostname}}:{{.port}}/v{{.version}}/{{.endpoint}}".
Definition permDeniedError : string := "PermissionDeniedError".
Definition USetToken : string := "".

(** [httpErrors]: the keys of the map literal. *)
Definition httpErrors (code : Z) : bool :=
  (code =? 400) || (code =? 401) || (code =? 422) || (code =? 500).

Record ReturnLogin : Type := {
  Key : string;
  Version : string
}.

Record ErrResponse21 : Type := {
  Name : string;
  Code : Z;
  HTTP : Z;
  Message : string;
  Debug : string;
  Ts : string;
  APIReqId : Z;
  StorageNodeUUID : string;
  StorageNodeHostname : string;
  Schema : string;
  Errors : list string
}.

(** A response body is an [io.ReadCloser]: a stateful reader.  It is
    modelled by what the successive calls of [ioutil.ReadAll] on it give;
    once the list is used up the reader is at end of file and [ReadAll]
    gives the empty slice and no error.  The body of an ordinary HTTP
    response with content [c] is [[ReadOk c]]. *)
Inductive ReadResult : Type :=
| ReadOk (data : string)
| ReadErr (msg : string).

Definition Reader : Type := list ReadResult.

Definition ioutil_ReadAll (b : Reader) : ReadResult * Reader :=
  match b with
  | [] => (ReadOk "", [])
  | r :: rest => (r, rest)
  end.

(** [http.Response], the fields the package reads. *)
Record Response : Type := {
  StatusCode : Z;
  Status : string;
  Body : Reader
}.

(** The rendered request handed to the transport. *)
Record Request : Type := {
  req_method : string;
  req_url : string;
  req_headers : gmap string string;
  req_body : option string
}.

Inductive DoResult : Type :=
| DoErr (msg : string)
| DoResp (resp : Response).

(** ** The package [text/template], on the templates the package uses

    The two URL templates consist of text and of actions [{{.name}}].  On
    such templates, executed on a [map[string]string], text/template copies
    the text and replaces each action by the entry of the map under [name],
    or by [<no value>] where the map has none.  [render] is that reading;
    it is undefined ([None]) on an unclosed action, which text/template
    rejects too, and on every action of another form, where it says nothing
    about text/template. *)

Module template.

Inductive segment : Type :=
| Text (s : string)
| Field (name : string).

Definition letter (a : ascii) : bool :=
  let n := N_of_ascii a in
  ((65 <=? n) && (n <=? 90) || (97 <=? n) && (n <=? 122) || (n =? 95))%N.

Definition digit (a : ascii) : bool :=
  let n := N_of_ascii a in ((48 <=? n) && (n <=? 57))%N.

Fixpoint ident_rest (s : string) : bool :=
  match s with
  | EmptyString => true
  | String a s' => (letter a || digit a) && ident_rest s'
  end.

Definition ident (s : string) : bool :=
  match s with
  | EmptyString => false
  | String a s' => letter a && ident_rest s'
  end.

Fixpoint drop (n : nat) (s : string) : string :=
  match n, s with
  | S n', String _ s' => drop n' s'
  | _, _ => s
  end.

(** [cut s d]: the text before the first occurrence of [d] in [s] and the
    text after it. *)
Fixpoint cut (s d : string) : option (string * string) :=
  if GoStrings.HasPrefix s d then Some (EmptyString, drop (String.length d) s)
  else match s with
       | EmptyString => None
       | String a s' =>
           match cut s' d with
           | Some (b, r) => Some (String a b, r)
           | None => None
           end
       end.

Definition text (s : string) : list segment :=
  match s with EmptyString => [] | _ => [Text s] end.

Fixpoint parse_fuel (fuel : nat) (s : string) : option (list segment) :=
  match fuel with
  | O => None
  | S f =>
      match cut s "{{" with
      | None => Some (text s)
      | Some (txt, rest) =>
          match cut rest "}}" with
          | None => None
          | Some (String "." name, rest') =>
              if ident name then
                match parse_fuel f rest' with
                | Some segs => Some (text txt ++ Field name :: segs)%list
                | None => None
                end
              else None
          | Some _ => None
          end
      end
  end.

Definition parse (s : string) : option (list segment) :=
  parse_fuel (S (String.length s)) s.

Fixpoint exec (segs : list segment) (m : gmap string string) : string :=
  match segs with
  | [] => EmptyString
  | Text s :: rest => s ++ exec rest m
  | Field name :: rest => default "<no value>" (m !! name) ++ exec rest m
  end.

Definition render (s : string) (m : gmap string string) : option string :=
  match parse s with
  | Some segs => Some (exec segs m)
  | None => None
  end.

End template.

(** ** The libraries the package calls

    [json_Unmarshal_*] give [None] where [json.Unmarshal] returns an error;
    [template_Parse] and [template_Execute] likewise for text/template;
    [http_NewRequest] tells whether [http.NewRequest] accepts the method and
    the URL; [Client_Do] is the transport, a step of the outside world, whose
    states are the type [World];
    [NewUUID] is the package's own helper, which lives in another file.
    The last two fields are the facts about the libraries the proofs use. *)
Class GoLib (World : Type) : Type := {
  json_Unmarshal_ErrResponse21 : string -> option ErrResponse21;
  json_Unmarshal_ReturnLogin : string -> option ReturnLogin;
  json_Marshal : gmap string Value -> option string;
  Template : Type;
  template_Parse : string -> option Template;
  template_Execute : Template -> gmap string string -> option string;
  http_NewRequest : string -> string -> bool;
  Client_Do : Request -> World -> DoResult * World;
  NewUUID : World -> option string * World;
  (* text/template agrees with [template.render] where that is defined *)
  template_render : forall s m out,
    template.render s m = Some out ->
    exists t, template_Parse s = Some t /\ template_Execute t m = Some out;
  (* the empty input is not a JSON text *)
  json_Unmarshal_empty : json_Unmarshal_ErrResponse21 "" = None
}.

(** ** The parameter encoder *)

Definition strconv_ParseBool (s : string) : bool := String.eqb s "true".

(** The loop of [parseParams] under [case interface{}]. *)
Fixpoint parseParams_loop (params : list Value) (result : gmap string Value)
  : outcome (gmap string Value) :=
  match params with
  | [] => Returned result
  | VString s :: rest =>
      match GoStrings.Split s "=" with
      | p0 :: p1 :: _ =>
          let v := if String.eqb p1 "true" || String.eqb p1 "false"
                   then VBool (strconv_ParseBool p1) else VString p1 in
          parseParams_loop rest (<[p0 := v]> result)
      | p => Panicked (PanicIndex 1 (length p))
      end
  | param :: _ => Panicked (PanicTypeAssert param)
  end.

(** [parseParams].  In the type switch [case interface{}] takes every first
    argument that is not [nil] and not a [map[string]interface{}]; only the
    [nil] interface reaches [default]. *)
Definition parseParams (params : list Value)
  : outcome (gmap string Value * option error) :=
  let result : gmap string Value := ∅ in
  match params with
  | [] => Returned (result, None)
  | VMap r :: _ => Returned (r, None)
  | VNil :: _ => Returned (result, Some (ErrParseParams params))
  | _ :: _ => obind (parseParams_loop params result)
                    (fun result => Returned (result, None))
  end.

(** ** The response classifier *)

Definition handleBadResponse `{GoLib World} (resp : Response) : outcome (option error) :=
  let ok := httpErrors (StatusCode resp) in
  let tail := if ok then Returned (Some (ErrStatus (Status resp)))
              else Returned None in
  if StatusCode resp =? 401 then
    match fst (ioutil_ReadAll (Body resp)) with
    | ReadErr _ => Panicked (PanicMsg "Couldn't understand response")
    | ReadOk b =>
        match json_Unmarshal_ErrResponse21 b with
        | None => Panicked (PanicMsg "Couldn't understand response")
        | Some e => if String.eqb (Name e) permDeniedError
                    then Returned (Some Retry) else tail
        end
    end
  else tail.

(** ** The template renderer *)

(** The loop of [parseTemplate] under [case string]. *)
Fixpoint parseTemplate_args (args : list Value) (argm : gmap string string)
  : outcome (gmap string string) :=
  match args with
  | [] => Returned argm
  | VString arg :: rest =>
      match GoStrings.Split arg "=" with
      | [x0; x1] => parseTemplate_args rest (<[x0 := x1]> argm)
      | _ => parseTemplate_args rest argm
      end
  | i :: _ => Panicked (PanicTypeAssert i)
  end.

Definition placeholder (k : string) : string := "{{." ++ k ++ "}}".

(** The keys of [argm] the template text does not mention.  Go ranges over
    a map in no fixed order; the order of [map_to_list] stands for it. *)
Definition missing_keys (fstring : string) (argm : gmap string string) : list string :=
  filter (fun k => GoStrings.Contains fstring (placeholder k) = false)
         (map_to_list argm).*1.

Definition parseTemplate `{GoLib World} (fstring : string) (args : list Value)
  : outcome (string * option error) :=
  match template_Parse fstring with
  | None => Returned ("", Some (ErrLib "template.Parse"))
  | Some tpl =>
      obind
        match args with
        | [] => Panicked (PanicIndex 0 0)
        | VString _ :: _ => parseTemplate_args args ∅
        | VMapString t :: _ => Returned t
        | _ :: _ => Returned ∅
        end
        (fun argm =>
           match missing_keys fstring argm with
           | k :: _ => Returned ("", Some (ErrArgNotFound fstring k))
           | [] =>
               match template_Execute tpl argm with
               | None => Returned ("", Some (ErrLib "template.Execute"))
               | Some s => Returned (s, None)
               end
           end)
  end.

(** ** The session *)

(** A [[]string] value: [nil], or a reference to its backing array in the
    store.  Two slice values with the same reference share their elements. *)
Definition slice : Type := option nat.

(** [APIConnection].  [Mutex] holds whether the mutex is locked; the
    transport behind [Client] is [Client_Do]. *)
Record APIConnection : Type := {
  Mutex : bool;
  Method : string;
  Endpoint : string;
  Headers : gmap string string;
  QParams : slice;
  Hostname : string;
  APIVersion : string;
  Port : string;
  Username : string;
  Password : string;
  Secure : bool;
  APIToken : string;
  Tenant : string
}.

Definition set_Mutex (b : bool) (r : APIConnection) : APIConnection :=
  {| Mutex := b; Method := Method r; Endpoint := Endpoint r;
     Headers := Headers r; QParams := QParams r; Hostname := Hostname r;
     APIVersion := APIVersion r; Port := Port r; Username := Username r;
     Password := Password r; Secure := Secure r; APIToken := APIToken r;
     Tenant := Tenant r |}.

Definition set_Headers (h : gmap string string) (r : APIConnection) : APIConnection :=
  {| Mutex := Mutex r; Method := Method r; Endpoint := Endpoint r;
     Headers := h; QParams := QParams r; Hostname := Hostname r;
     APIVersion := APIVersion r; Port := Port r; Username := Username r;
     Password := Password r; Secure := Secure r; APIToken := APIToken r;
     Tenant := Tenant r |}.

Definition set_APIToken (t : string) (r : APIConnection) : APIConnection :=
  {| Mutex := Mutex r; Method := Method r; Endpoint := Endpoint r;
     Headers := Headers r; QParams := QParams r; Hostname := Hostname r;
     APIVersion := APIVersion r; Port := Port r; Username := Username r;
     Password := Password r; Secure := Secure r; APIToken := t;
     Tenant := Tenant r |}.

(** The three assignments at the head of [doRequest]. *)
Definition set_call (m e : string) (q : slice) (r : APIConnection) : APIConnection :=
  {| Mutex := Mutex r; Method := m; Endpoint := e;
     Headers := Headers r; QParams := q; Hostname := Hostname r;
     APIVersion := APIVersion r; Port := Port r; Username := Username r;
     Password := Password r; Secure := Secure r; APIToken := APIToken r;
     Tenant := Tenant r |}.

(** What the run has done that an observer outside can count: the requests
    handed to the transport, and the calls of [Login] the pipeline made. *)
Inductive Event : Type :=
| EvDo (req : Request)
| EvLogin.

(** The map [prepConn] fills the template with, and the URL it makes. *)
Definition conn_args (r : APIConnection) : gmap string string :=
  <["hostname" := Hostname r]> (<["port" := Port r]>
    (<["endpoint" := Endpoint r]> (<["version" := APIVersion r]> ∅))).

Definition scheme (r : APIConnection) : string :=
  if Secure r then "https://" else "http://".

Definition base_url (r : APIConnection) : string :=
  scheme r ++ Hostname r ++ ":" ++ Port r ++ "/v" ++ APIVersion r ++ "/" ++ Endpoint r.

Definition with_query (base : string) (q : list string) : string :=
  let qparams := GoStrings.Join q "&" in
  if (0 <? String.length qparams)%nat then base ++ "?" ++ qparams else base.

Definition is_EvLogin (e : Event) : bool :=
  match e with EvLogin => true | EvDo _ => false end.

(** How often the pipeline called [Login], and the requests it sent. *)
Definition logins (t : list Event) : nat := length (List.filter is_EvLogin t).

Definition requests (t : list Event) : list Request :=
  omap (fun e => match e with EvDo req => Some req | EvLogin => None end) t.

Section Session.

Context `{GoLib World}.

(** The session, the store of slice backing arrays, the outside world, and
    the events so far (oldest first). *)
Record State : Type := {
  session : APIConnection;
  heap : gmap nat (list string);
  world : World;
  trace : list Event
}.

Definition with_conn (f : APIConnection -> APIConnection) (st : State) : State :=
  {| session := f (session st); heap := heap st; world := world st; trace := trace st |}.

Definition with_heap (h : gmap nat (list string)) (st : State) : State :=
  {| session := session st; heap := h; world := world st; trace := trace st |}.

Definition with_world (w : World) (st : State) : State :=
  {| session := session st; heap := heap st; world := w; trace := trace st |}.

Definition log (e : Event) (st : State) : State :=
  {| session := session st; heap := heap st; world := world st; trace := trace st ++ [e] |}.

(** Computations on the state that may end in any [outcome]. *)
Definition M (A : Type) : Type := State -> outcome A * State.

Definition ret {A} (a : A) : M A := fun st => (Returned a, st).

Definition bind {A B} (c : M A) (k : A -> M B) : M B :=
  fun st =>
    match c st with
    | (Returned a, st') => k a st'
    | (Panicked p, st') => (Panicked p, st')
    | (Crashed, st') => (Crashed, st')
    | (Blocked, st') => (Blocked, st')
    | (OutOfFuel, st') => (OutOfFuel, st')
    end.

Definition lift {A} (o : outcome A) : M A := fun st => (o, st).

Definition modify (f : State -> State) : M unit := fun st => (Returned tt, f st).

Definition gets {A} (f : State -> A) : M A := fun st => (Returned (f st), st).

Declare Scope go_scope.
Delimit Scope go_scope with go.
Notation "'let*' x ':=' c 'in' k" := (bind c (fun x => k))
  (at level 10, x name, c at level 100, k at level 200) : go_scope.
Notation "'let*' ' p ':=' c 'in' k" := (bind c (fun x => match x with p => k end))
  (at level 10, p pattern, c at level 100, k at level 200) : go_scope.
Notation "c ;; k" := (bind c (fun _ => k))
  (at level 100, right associativity) : go_scope.

Local Open Scope go_scope.

(** [sync.Mutex] seen from the one goroutine that runs. *)
Definition Mutex_Lock : M unit := fun st =>
  if Mutex (session st) then (Blocked, st)
  else (Returned tt, with_conn (set_Mutex true) st).

Definition Mutex_Unlock : M unit := fun st =>
  if Mutex (session st) then (Returned tt, with_conn (set_Mutex false) st)
  else (Crashed, st).

(** [UpdateHeaders] on the session record.  An entry without [=] makes
    [h[1]] index past the end; the entries before it are already stored. *)
Fixpoint UpdateHeaders (headers : list string) (r : APIConnection)
  : outcome (option error) * APIConnection :=
  match headers with
  | [] => (Returned None, r)
  | h :: rest =>
      match GoStrings.Split h "=" with
      | h0 :: h1 :: _ => UpdateHeaders rest (set_Headers (<[h0 := h1]> (Headers r)) r)
      | p => (Panicked (PanicIndex 1 (length p)), r)
      end
  end.

Definition UpdateHeadersM (headers : list string) : M (option error) := fun st =>
  let (o, r) := UpdateHeaders headers (session st) in
  (o, with_conn (fun _ => r) st).

(** The elements of a slice; [nil] and a reference the store does not hold
    have none. *)
Definition elems (q : slice) (st : State) : list string :=
  match q with
  | None => []
  | Some l => default [] (heap st !! l)
  end.

(** [for i, p := range r.QParams { r.QParams[i] = url.QueryEscape(p) }]:
    the elements are overwritten in the backing array. *)
Definition escape_QParams : M unit := fun st =>
  match QParams (session st) with
  | None => (Returned tt, st)
  | Some l =>
      match heap st !! l with
      | None => (Returned tt, st)
      | Some ps => (Returned tt,
                    with_heap (<[l := map url.QueryEscape ps]> (heap st)) st)
      end
  end.

Definition prepConn : M (string * option error) :=
  let* r := gets session in
  let fstring := if Secure r then secConnTemplate else connTemplate in
  let m : gmap string string := conn_args r in
  let* '(conn, err) := lift (parseTemplate fstring [VMapString m]) in
  match err with
  | Some e => ret ("", Some e)
  | None =>
      (if String.eqb (APIToken r) USetToken then ret None
       else UpdateHeadersM ["Auth-Token=" ++ APIToken r]) ;;
      escape_QParams ;;
      let* q := gets (fun st => elems (QParams (session st)) st) in
      let qparams := GoStrings.Join q "&" in
      if (0 <? String.length qparams)%nat
      then ret (GoStrings.Join [conn; qparams] "?", None)
      else ret (conn, None)
  end.

(** The method switch at the head of [doRequest]. *)
Definition resolve_method (method : string) : outcome string :=
  let l := GoStrings.ToLower method in
  if String.eqb l "get" then Returned "GET"
  else if String.eqb l "put" then Returned "PUT"
  else if String.eqb l "post" then Returned "POST"
  else if String.eqb l "delete" then Returned "DELETE"
  else Panicked (PanicMsg ("Did not understand method request " ++ method)).

(** One attempt ends either at one of the early [return []byte(""), err]
    statements, which leave the mutex locked, or with the body read and the
    classification made, at the line after [handleBadResponse]. *)
Inductive attempt_result : Type :=
| EarlyReturn (e : error)
| Classified (rbody : string) (err : option error).

Definition call_NewUUID : M (option string) := fun st =>
  let (u, w) := NewUUID (world st) in (Returned u, with_world w st).

Definition call_Client_Do (req : Request) : M DoResult := fun st =>
  let (d, w) := Client_Do req (world st) in
  (Returned d, log (EvDo req) (with_world w st)).

(** [doRequest] from [http.NewRequest] to [err = handleBadResponse(resp)]:
    the request is made and sent, the response body is read to its end into
    [rbody], and the classifier then reads the same reader again. *)
Definition transmit (conn : string) (body : option string) : M attempt_result :=
  let* r := gets session in
  let req := {| req_method := Method r; req_url := conn;
                req_headers := Headers r; req_body := body |} in
  if negb (http_NewRequest (Method r) conn) then
    (* req is nil: the loop over the headers dereferences it *)
    if decide (Headers r = ∅) then ret (EarlyReturn (ErrLib "http.NewRequest"))
    else lift (Panicked PanicNilDeref)
  else
    let* u := call_NewUUID in
    match u with
    | None => ret (EarlyReturn (ErrLib "NewUUID"))
    | Some _ =>
        let* d := call_Client_Do req in
        match d with
        | DoErr msg => ret (EarlyReturn (ErrLib msg))
        | DoResp resp =>
            match ioutil_ReadAll (Body resp) with
            | (ReadErr msg, _) => ret (EarlyReturn (ErrLib msg))
            | (ReadOk rbody, rest) =>
                let* err := lift (handleBadResponse
                              {| StatusCode := StatusCode resp;
                                 Status := Status resp; Body := rest |}) in
                ret (Classified rbody err)
            end
        end
    end.

(** [doRequest] from [r.Mutex.Lock()] to [err = handleBadResponse(resp)].
    [sensitive] only selects what is written to the debug log. *)
Definition attempt (method endpoint : string) (body : option string)
    (qparams : slice) (sensitive : bool) : M attempt_result :=
  Mutex_Lock ;;
  let* m := lift (resolve_method method) in
  modify (with_conn (set_call m (GoStrings.Trim endpoint "/") qparams)) ;;
  let* '(conn, err) := prepConn in
  match err with
  | Some e => ret (EarlyReturn e)
  | None => transmit conn body
  end.

Definition doRequest_t : Type :=
  string -> string -> option string -> slice -> bool -> bool -> M (string * option error).

(** [Put], [Post] and [Delete] over a given [doRequest]. *)
Definition body_verb (doRequest : doRequest_t) (verb endpoint : string)
    (sensitive : bool) (bodyp : list Value) : M (string * option error) :=
  let* '(params, err) := lift (parseParams bodyp) in
  match err with
  | Some e => ret ("", Some e)
  | None =>
      match json_Marshal params with
      | None => ret ("", Some (ErrLib "json.Marshal"))
      | Some body => doRequest verb endpoint (Some body) None sensitive false
      end
  end.

(** [Login] over a given [Put]. *)
Definition Login_with (Put : string -> bool -> list Value -> M (string * option error))
  : M (option error) :=
  let* r := gets session in
  let p1 := "name=" ++ Username r in
  let p2 := "password=" ++ Password r in
  if String.eqb (APIToken r) "" then
    let* '(resp, err) := Put "login" true [VString p1; VString p2] in
    match err with
    | Some err =>
        match json_Unmarshal_ErrResponse21 resp with
        | None => ret (Some err)
        | Some e => ret (Some (ErrMessage (Message e)))
        end
    | None =>
        match json_Unmarshal_ReturnLogin resp with
        | None => ret (Some (ErrLib "json.Unmarshal"))
        | Some l =>
            if String.eqb (Key l) "" then ret (Some (ErrNoToken resp))
            else modify (with_conn (set_APIToken (Key l))) ;; ret None
        end
    end
  else ret None.

(** The path from the first [r.Mutex.Unlock()] to the return of [r.Login()]
    in the retry branch of [doRequest], over a given [doRequest]. *)
Definition relogin_with (doRequest : doRequest_t) : M (option error) :=
  Mutex_Unlock ;;
  modify (with_conn (set_APIToken USetToken)) ;;
  modify (log EvLogin) ;;
  Login_with (body_verb doRequest "put").

(** [doRequest].  [fuel] bounds the depth of the calls of [doRequest] inside
    one another: the retry, and the request [Login] makes through [Put].
    What [r.Login()] and the retried [r.doRequest(...)] return is dropped. *)
Fixpoint doRequest (fuel : nat) (method endpoint : string) (body : option string)
    (qparams : slice) (sensitive retry : bool) : M (string * option error) :=
  match fuel with
  | O => lift OutOfFuel
  | S fuel' =>
      let* a := attempt method endpoint body qparams sensitive in
      match a with
      | EarlyReturn e => ret (EmptyString, Some e)
      | Classified rbody err =>
          (if is_Retry err && negb retry then
             relogin_with (doRequest fuel') ;;
             doRequest fuel' method endpoint body qparams sensitive true ;;
             ret tt
           else ret tt) ;;
          Mutex_Unlock ;;
          ret (rbody, err)
      end
  end.

Definition Get (fuel : nat) (endpoint : string) (qparams : slice) : M (string * option error) :=
  doRequest fuel "get" endpoint None qparams false false.

Definition Put (fuel : nat) (endpoint : string) (sensitive : bool) (bodyp : list Value)
  : M (string * option error) :=
  body_verb (doRequest fuel) "put" endpoint sensitive bodyp.

Definition Post (fuel : nat) (endpoint : string) (bodyp : list Value)
  : M (string * option error) :=
  body_verb (doRequest fuel) "post" endpoint false bodyp.

Definition Delete (fuel : nat) (endpoint : string) (bodyp : list Value)
  : M (string * option error) :=
  body_verb (doRequest fuel) "delete" endpoint false bodyp.

Definition Login (fuel : nat) : M (option error) := Login_with (Put fuel).

End Session.

Arguments State World : clear implicits.
Arguments M World A : clear implicits.

(** ** What building a request leaves in the state *)

(** The value [UpdateHeaders] stores for [Auth-Token=tok]: the token up to
    its first [=]. *)
Definition token_header (tok : string) : string :=
  match GoStrings.Split tok "=" with
  | h1 :: _ => h1
  | [] => EmptyString
  end.

Definition auth_header (r : APIConnection) : APIConnection :=
  if String.eqb (APIToken r) USetToken then r
  else set_Headers (<["Auth-Token" := token_header (APIToken r)]> (Headers r)) r.

(** The store after the elements of the slice [q] were escaped in place. *)
Definition escaped (q : slice) (h : gmap nat (list string)) : gmap nat (list string) :=
  match q with
  | Some l => match h !! l with
              | Some ps => <[l := map url.QueryEscape ps]> h
              | None => h
              end
  | None => h
  end.

(** The state [prepConn] leaves. *)
Definition prepared {World : Type} (st : State World) : State World :=
  with_heap (escaped (QParams (session st)) (heap st)) (with_conn auth_header st).

(** The fields of the session that no call assigns. *)
Definition same_config (r r' : APIConnection) : Prop :=
  Hostname r = Hostname r' /\ APIVersion r = APIVersion r' /\ Port r = Port r'
  /\ Username r = Username r' /\ Password r = Password r'
  /\ Secure r = Secure r' /\ Tenant r = Tenant r'.

Fixpoint any_byte (f : ascii -> bool) (s : string) : bool :=
  match s with
  | EmptyString => false
  | String a s' => f a || any_byte f s'
  end.

(** Whether a string holds a byte that [url.QueryEscape] changes. *)
Definition changed_by_escape (p : string) : bool :=
  any_byte (fun a => negb (url.unreserved a)) p.

(** The bytes [url.QueryEscape] writes as three. *)
Definition needs_hex (a : ascii) : bool :=
  negb (url.unreserved a) && negb (N_of_ascii a =? 32)%N.

(** The URL of a call to [endpoint] with the query parameters [q], on the
    session [r]. *)
Definition url_of (r : APIConnection) (endpoint : string) (q : list string) : string :=
  with_query (scheme r ++ Hostname r ++ ":" ++ Port r ++ "/v" ++ APIVersion r
                ++ "/" ++ GoStrings.Trim endpoint "/") q.

(** ** The parameter encoder in the words of the specification

    Each flat argument is split on its first [=] into a key and a value; the
    values [true] and [false] become booleans, every other value stays a
    string. *)

Module Spec.

Fixpoint split_first (s : string) (sep : ascii) : option (string * string) :=
  match s with
  | EmptyString => None
  | String a s' =>
      if Ascii.eqb a sep then Some (EmptyString, s')
      else match split_first s' sep with
           | Some (k, v) => Some (String a k, v)
           | None => None
           end
  end.

Definition coerce (v : string) : Value :=
  if String.eqb v "true" then VBool true
  else if String.eqb v "false" then VBool false
  else VString v.

Fixpoint Encode_flat (args : list string) (acc : gmap string Value)
  : option (gmap string Value) :=
  match args with
  | [] => Some acc
  | s :: rest =>
      match split_first s "=" with
      | Some (k, v) => Encode_flat rest (<[k := coerce v]> acc)
      | None => None
      end
  end.

End Spec.

(** ** States of a call, and the constructor *)

(** The state in which [doRequest] hands the request to the transport: the
    mutex locked, the call stored, the token header set, the query
    parameters escaped. *)
Definition built {World : Type} (m e : string) (q : slice) (st : State World)
  : State World :=
  prepared (with_conn (set_call m (GoStrings.Trim e "/") q)
              (with_conn (set_Mutex true) st)).

(** The state in which the retry branch calls [Login]. *)
Definition relogin_state {World : Type} (st : State World) : State World :=
  log EvLogin (with_conn (set_APIToken USetToken) (with_conn (set_Mutex false) st)).

(** The parameters [Login] hands to [Put], as [parseParams] encodes them:
    of the user name and of the password only the part before the first
    [=] is kept, and [true] and [false] are turned into booleans. *)
Definition credentials (username password : string) : gmap string Value :=
  <["password" := Spec.coerce (token_header password)]>
    (<["name" := Spec.coerce (token_header username)]> ∅).

(** [for p, v := range headers { h[p] = v }]. *)
Definition copy_headers (headers h : gmap string string) : gmap string string :=
  map_fold (fun p v acc => <[p := v]> acc) h headers.

Section Construction.

(** [time.ParseDuration]: the duration in nanoseconds, [None] for an error. *)
Variable time_ParseDuration : string -> option Z.

(** [NewAPIConnection]: the session and the timeout of its HTTP client, or
    the error.  What [c.UpdateHeaders] returns is dropped. *)
Definition NewAPIConnection (hostname port username password apiVersion tenant
    timeout : string) (headers : gmap string string) (secure : bool)
  : outcome (option (APIConnection * Z) * option error) :=
  match time_ParseDuration timeout with
  | None => Returned (None, Some (ErrLib "time.ParseDuration"))
  | Some t =>
      let h := copy_headers headers (<["Content-Type" := "application/json"]> ∅) in
      let c := {| Mutex := false; Method := EmptyString; Endpoint := EmptyString;
                  Headers := h; QParams := None; Hostname := hostname;
                  APIVersion := apiVersion; Port := port; Username := username;
                  Password := password; Secure := secure; APIToken := EmptyString;
                  Tenant := tenant |} in
      match UpdateHeaders ["tenant=" ++ tenant] c with
      | (Returned _, c') => Returned (Some (c', t), None)
      | (Panicked p, _) => Panicked p
      | (Crashed, _) => Crashed
      | (Blocked, _) => Blocked
      | (OutOfFuel, _) => OutOfFuel
      end
  end.

End Construction.

(** ** A library and a transport to run the package on

    [Mock] is one implementation of [GoLib]: JSON restricted to objects of
    string members written without blanks and escapes, text/template
    restricted to [template.render], a transport that replays a script of
    responses.  The examples run the package on it. *)

Module Mock.

Definition dquote : ascii := ascii_of_N 34.

(** The characters of a JSON string up to its closing quote. *)
Fixpoint read_string (s : string) : option (string * string) :=
  match s with
  | EmptyString => None
  | String a s' =>
      if Ascii.eqb a dquote then Some (EmptyString, s')
      else if Ascii.eqb a "\" then None
      else match read_string s' with
           | Some (x, r) => Some (String a x, r)
           | None => None
           end
  end.

(** [s] without its first byte, when that is [c]. *)
Definition expect (c : ascii) (s : string) : option string :=
  match s with
  | String a s' => if Ascii.eqb a c then Some s' else None
  | EmptyString => None
  end.

(** The members of an object, from after the opening brace or a comma to
    the closing brace. *)
Fixpoint read_members (fuel : nat) (s : string) (acc : gmap string string)
  : option (gmap string string) :=
  match fuel with
  | O => None
  | S f =>
      '(k, s1) ← expect dquote s ≫= read_string;
      '(v, s2) ← (expect ":" s1 ≫= expect dquote) ≫= read_string;
      match s2 with
      | String "," s3 => read_members f s3 (<[k := v]> acc)
      | String "}" EmptyString => Some (<[k := v]> acc)
      | _ => None
      end
  end.

Definition read_object (s : string) : option (gmap string string) :=
  match s with
  | String "{" (String "}" EmptyString) => Some ∅
  | String "{" s' => read_members (String.length s) s' ∅
  | _ => None
  end.

Definition unmarshal_ErrResponse21 (b : string) : option ErrResponse21 :=
  match read_object b with
  | None => None
  | Some m =>
      Some {| Name := default "" (m !! "name"); Code := 0; HTTP := 0;
              Message := default "" (m !! "message");
              Debug := default "" (m !! "debug"); Ts := default "" (m !! "ts");
              APIReqId := 0;
              StorageNodeUUID := default "" (m !! "storage_node_uuid");
              StorageNodeHostname := default "" (m !! "storage_node_hostname");
              Schema := default "" (m !! "schema"); Errors := [] |}
  end.

Definition unmarshal_ReturnLogin (b : string) : option ReturnLogin :=
  match read_object b with
  | None => None
  | Some m => Some {| Key := default "" (m !! "key");
                      Version := default "" (m !! "version") |}
  end.

Definition quote (s : string) : string :=
  String dquote s ++ String dquote EmptyString.

(** The text of an object of string members. *)
Definition object (members : list (string * string)) : string :=
  "{" ++ GoStrings.Join (map (fun kv => quote kv.1 ++ ":" ++ quote kv.2) members) ","
      ++ "}".

Definition marshal_member (kv : string * Value) : option string :=
  match kv with
  | (k, VString v) => Some (quote k ++ ":" ++ quote v)
  | (k, VBool true) => Some (quote k ++ ":true")
  | (k, VBool false) => Some (quote k ++ ":false")
  | _ => None
  end.

(** Objects of strings and booleans, members in the order of [map_to_list]. *)
Definition marshal (m : gmap string Value) : option string :=
  match mapM marshal_member (map_to_list m) with
  | Some ms => Some ("{" ++ GoStrings.Join ms "," ++ "}")
  | None => None
  end.

(** The transport answers with the next entry of its script. *)
Definition replay (req : Request) (w : list DoResult) : DoResult * list DoResult :=
  match w with
  | [] => (DoErr "connection refused", [])
  | d :: w' => (d, w')
  end.

Lemma render_conforms (s : string) (m : gmap string string) (out : string) :
  template.render s m = Some out ->
  exists t, template.parse s = Some t /\ Some (template.exec t m) = Some out.
Proof.
  unfold template.render. destruct (template.parse s) as [t|]; [|discriminate].
  intros Hout. exists t. split; [reflexivity|exact Hout].
Qed.

Lemma unmarshal_empty : unmarshal_ErrResponse21 "" = None.
Proof. reflexivity. Qed.

#[global] Instance lib : GoLib (list DoResult) := {|
  json_Unmarshal_ErrResponse21 := unmarshal_ErrResponse21;
  json_Unmarshal_ReturnLogin := unmarshal_ReturnLogin;
  json_Marshal := marshal;
  Template := list template.segment;
  template_Parse := template.parse;
  template_Execute := fun t m => Some (template.exec t m);
  http_NewRequest := fun _ _ => true;
  Client_Do := replay;
  NewUUID := fun w => (Some "00000000-0000-4000-8000-000000000000", w);
  template_render := render_conforms;
  json_Unmarshal_empty := unmarshal_empty
|}.

(** A session as [NewAPIConnection] builds it, the mutex unlocked. *)
Definition session0 : APIConnection :=
  {| Mutex := false; Method := ""; Endpoint := "";
     Headers := <["tenant" := "/root"]> (<["Content-Type" := "application/json"]> ∅);
     QParams := None; Hostname := "10.0.0.1"; APIVersion := "2.1";
     Port := "7717"; Username := "admin"; Password := "secret";
     Secure := false; APIToken := ""; Tenant := "/root" |}.

Definition start (r : APIConnection) (h : gmap nat (list string))
    (script : list DoResult) : State (list DoResult) :=
  {| session := r; heap := h; world := script; trace := [] |}.

(** The 401 answer that asks for a new login.  Its body gives its content
    to each of the two reads the pipeline makes of it. *)
Definition denied_body : string := object [("name", "PermissionDeniedError")].

Definition denied : DoResult :=
  DoResp {| StatusCode := 401; Status := "401 Unauthorized";
            Body := [ReadOk denied_body; ReadOk denied_body] |}.

Definition ok (body : string) : DoResult :=
  DoResp {| StatusCode := 200; Status := "200 OK"; Body := [ReadOk body] |}.

End Mock.

Module Stubborn.

(** The library of [Mock] behind a transport that answers every request
    with the 401 that asks for a new login. *)
Definition lib : GoLib unit := {|
  json_Unmarshal_ErrResponse21 := Mock.unmarshal_ErrResponse21;
  json_Unmarshal_ReturnLogin := Mock.unmarshal_ReturnLogin;
  json_Marshal := Mock.marshal;
  Template := list template.segment;
  template_Parse := template.parse;
  template_Execute := fun t m => Some (template.exec t m);
  http_NewRequest := fun _ _ => true;
  Client_Do := fun _ w => (Mock.denied, w);
  NewUUID := fun w => (Some "00000000-0000-4000-8000-000000000000", w);
  template_render := Mock.render_conforms;
  json_Unmarshal_empty := Mock.unmarshal_empty
|}.

End Stubborn.

(** * Properties *)

(** ** Splitting on a separator *)

Lemma Split_not_nil (s : string) (c : ascii) : GoStrings.Split s c <> [].
Proof.
  destruct s as [|a s]; simpl; [discriminate|].
  destruct (Ascii.eqb a c); [discriminate|].
  destruct (GoStrings.Split s c); discriminate.
Qed.

Lemma Split_no_sep (s : string) (c : ascii) :
  GoStrings.Count s c = 0%nat -> GoStrings.Split s c = [s].
Proof.
  induction s as [|a s IH]; simpl; [reflexivity|].
  destruct (Ascii.eqb a c); [discriminate|].
  intros Hc. rewrite (IH Hc). reflexivity.
Qed.

Lemma Split_first (s : string) (c : ascii) (k v : string) :
  Spec.split_first s c = Some (k, v) ->
  GoStrings.Split s c = k :: GoStrings.Split v c.
Proof.
  revert k. induction s as [|a s IH]; simpl; intros k; [discriminate|].
  destruct (Ascii.eqb a c).
  - intros [= <- <-]. reflexivity.
  - destruct (Spec.split_first s c) as [[k' v']|]; [|discriminate].
    intros [= <- <-]. rewrite (IH k' eq_refl). reflexivity.
Qed.

Lemma split_first_Count (s : string) (c : ascii) :
  match Spec.split_first s c with
  | Some (k, v) => GoStrings.Count s c = S (GoStrings.Count v c)
                   /\ GoStrings.Count k c = 0%nat /\ s = k ++ String c v
  | None => GoStrings.Count s c = 0%nat
  end.
Proof.
  induction s as [|a s IH]; simpl; [reflexivity|].
  destruct (Ascii.eqb_spec a c) as [->|Hne].
  - repeat split.
  - destruct (Spec.split_first s c) as [[k v]|]; [|exact IH].
    destruct IH as (IH1 & IH2 & IH3). simpl.
    destruct (Ascii.eqb_spec a c); [contradiction|].
    repeat split; [exact IH1|exact IH2|now rewrite IH3].
Qed.

(** A string with exactly one separator splits into the two sides of it. *)
Lemma Split_one_sep (s : string) (c : ascii) :
  GoStrings.Count s c = 1%nat ->
  exists k v, Spec.split_first s c = Some (k, v) /\ GoStrings.Split s c = [k; v].
Proof.
  intros Hc. pose proof (split_first_Count s c) as Hs.
  destruct (Spec.split_first s c) as [[k v]|] eqn:E; [|congruence].
  destruct Hs as (Hs & _ & _). exists k, v. split; [reflexivity|].
  rewrite (Split_first _ _ _ _ E), Split_no_sep; [reflexivity|lia].
Qed.

Lemma Split_app_sep (k v : string) (c : ascii) :
  GoStrings.Count k c = 0%nat ->
  GoStrings.Split (k ++ String c v) c = k :: GoStrings.Split v c.
Proof.
  induction k as [|a k IH]; simpl.
  - rewrite Ascii.eqb_refl. reflexivity.
  - destruct (Ascii.eqb a c); [discriminate|].
    intros Hc. rewrite (IH Hc). reflexivity.
Qed.

Lemma Split_some_sep (s : string) (c : ascii) :
  GoStrings.Count s c <> 0%nat ->
  exists p0 p1 t, GoStrings.Split s c = p0 :: p1 :: t.
Proof.
  intros Hc. pose proof (split_first_Count s c) as Hs.
  destruct (Spec.split_first s c) as [[k v]|] eqn:E; [|contradiction].
  rewrite (Split_first _ _ _ _ E).
  destruct (GoStrings.Split v c) as [|p1 t] eqn:Ev.
  - now apply Split_not_nil in Ev.
  - now exists k, p1, t.
Qed.

(** ** The parameter encoder *)

Lemma coerce_code (p1 : string) :
  (if String.eqb p1 "true" || String.eqb p1 "false"
   then VBool (strconv_ParseBool p1) else VString p1) = Spec.coerce p1.
Proof.
  unfold Spec.coerce, strconv_ParseBool.
  destruct (String.eqb p1 "true") eqn:Et; simpl; [reflexivity|].
  destruct (String.eqb p1 "false"); reflexivity.
Qed.

Lemma parseParams_loop_flat (ss : list string) (acc : gmap string Value) :
  Forall (fun s => GoStrings.Count s "=" = 1%nat) ss ->
  exists m, Spec.Encode_flat ss acc = Some m
            /\ parseParams_loop (VString <$> ss) acc = Returned m.
Proof.
  intros Hss. revert acc. induction Hss as [|s ss Hs _ IH]; intros acc.
  - exists acc. split; reflexivity.
  - destruct (Split_one_sep s "=" Hs) as (k & v & Hk & Hv).
    destruct (IH (<[k := Spec.coerce v]> acc)) as (m & Hm1 & Hm2).
    exists m. cbn [Spec.Encode_flat fmap list_fmap parseParams_loop].
    rewrite Hk, Hv, coerce_code. split; assumption.
Qed.

(** C5, as the code has it.  For every sequence of flat string arguments
    that each hold exactly one [=], the encoder returns, with no error, the
    structure the specification describes: each string split on its [=]
    into key and value, the values [true] and [false] turned into booleans,
    every other value kept as a string, a later key replacing an earlier
    equal one.  With no argument it returns the empty structure and no
    error, and a map as first argument is returned as it is. *)
Theorem parseParams_flat_pairs :
  (forall ss : list string,
      Forall (fun s => GoStrings.Count s "=" = 1%nat) ss ->
      exists m, Spec.Encode_flat ss ∅ = Some m
                /\ parseParams (VString <$> ss) = Returned (m, None))
  /\ parseParams [] = Returned (∅, None)
  /\ (forall m rest, parseParams (VMap m :: rest) = Returned (m, None)).
Proof.
  split; [|split; reflexivity].
  intros ss Hss. destruct (parseParams_loop_flat ss ∅ Hss) as (m & Hm1 & Hm2).
  exists m. split; [exact Hm1|].
  destruct ss as [|s ss]; [now inversion Hm1|].
  unfold parseParams. cbn [fmap list_fmap] in *. rewrite Hm2. reflexivity.
Qed.

Lemma parseParams_flat_pairs_witness :
  exists m, Spec.Encode_flat ["a=1"; "b=true"] ∅ = Some m
            /\ parseParams [VString "a=1"; VString "b=true"] = Returned (m, None)
            /\ m = <["b" := VBool true]> (<["a" := VString "1"]> ∅).
Proof.
  destruct (proj1 parseParams_flat_pairs ["a=1"; "b=true"]) as (m & Hm1 & Hm2).
  - repeat constructor.
  - exists m. split; [exact Hm1|]. split; [exact Hm2|].
    assert (Spec.Encode_flat ["a=1"; "b=true"] ∅
            = Some (<["b" := VBool true]> (<["a" := VString "1"]> ∅))) as He
      by reflexivity.
    congruence.
Defined.

(** C5 as stated fails where an argument holds a second [=]: the code
    splits on every [=] and keeps only the piece between the first and the
    second, where splitting on the first [=] keeps the whole rest. *)
Lemma parseParams_second_sep_truncates :
  Spec.Encode_flat ["k=a=b"] ∅ = Some (<["k" := VString "a=b"]> ∅)
  /\ parseParams [VString "k=a=b"] = Returned (<["k" := VString "a"]> ∅, None)
  /\ parseParams [VString "k=a=b"] <> Returned (<["k" := VString "a=b"]> ∅, None).
Proof.
  split; [reflexivity|]. split; [reflexivity|].
  intros Hf.
  apply (f_equal (fun o => match o with
                           | Returned (m, _) => m !! "k"
                           | _ => None
                           end)) in Hf.
  vm_compute in Hf. discriminate Hf.
Qed.

(** The shapes of a first argument that are neither a string, nor a
    [map[string]interface{}], nor [nil]. *)
Definition other_shape (v : Value) : bool :=
  match v with
  | VBool _ | VInt _ | VList _ | VMapString _ => true
  | VNil | VString _ | VMap _ => false
  end.

(** C4, what the code does.  Only a [nil] first argument reaches the
    [default] branch and gets the error the claim promises.  A first
    argument of any other type that is no string and no
    [map[string]interface{}] falls under [case interface{}] and panics at
    [param.(string)]; a string without [=] panics at [p[1]]. *)
Theorem parseParams_default_only_nil :
  (forall rest, parseParams (VNil :: rest)
                = Returned (∅, Some (ErrParseParams (VNil :: rest))))
  /\ (forall v rest, other_shape v = true ->
        parseParams (v :: rest) = Panicked (PanicTypeAssert v))
  /\ (forall s rest, GoStrings.Count s "=" = 0%nat ->
        parseParams (VString s :: rest) = Panicked (PanicIndex 1 1)).
Proof.
  split; [reflexivity|]. split.
  - intros v rest Hv. destruct v; try discriminate Hv; reflexivity.
  - intros s rest Hs. unfold parseParams. cbn [parseParams_loop].
    rewrite (Split_no_sep _ _ Hs). reflexivity.
Qed.

Lemma parseParams_default_only_nil_witness :
  parseParams [VInt 42] = Panicked (PanicTypeAssert (VInt 42))
  /\ parseParams [VString "verbose"] = Panicked (PanicIndex 1 1).
Proof.
  split.
  - apply (proj1 (proj2 parseParams_default_only_nil)). reflexivity.
  - apply (proj2 (proj2 parseParams_default_only_nil)). reflexivity.
Defined.

(** ** [UpdateHeaders] *)

Lemma UpdateHeaders_returns_nil (hs : list string) (r r' : APIConnection)
    (o : option error) :
  UpdateHeaders hs r = (Returned o, r') -> o = None.
Proof.
  revert r. induction hs as [|h hs IH]; intros r; simpl.
  - now intros [= <- _].
  - destruct (GoStrings.Split h "=") as [|h0 [|h1 t]]; try discriminate.
    apply IH.
Qed.

Lemma UpdateHeaders_no_sep_panics (hs : list string) (r : APIConnection) :
  Exists (fun h => GoStrings.Count h "=" = 0%nat) hs ->
  exists r', UpdateHeaders hs r = (Panicked (PanicIndex 1 1), r').
Proof.
  intros Hex. revert r. induction hs as [|h hs IH]; intros r.
  - inversion Hex.
  - simpl. destruct (Nat.eq_dec (GoStrings.Count h "=") 0%nat) as [H0|Hn].
    + rewrite (Split_no_sep _ _ H0). now exists r.
    + destruct (Split_some_sep _ _ Hn) as (p0 & p1 & t & ->).
      apply IH. inversion Hex; subst; [contradiction|assumption].
Qed.

(** C9.  Whenever [UpdateHeaders] returns, it returns [nil].  If one of
    the arguments holds no [=], the call panics on the index [1] of the
    one-element result of the split and returns no error.  For an argument
    [key=value], neither side holding a [=], the entry of [key] becomes
    [value] and the rest of the session is as before. *)
Theorem UpdateHeaders_behaviour :
  (forall hs r o r', UpdateHeaders hs r = (Returned o, r') -> o = None)
  /\ (forall hs r, Exists (fun h => GoStrings.Count h "=" = 0%nat) hs ->
        exists r', UpdateHeaders hs r = (Panicked (PanicIndex 1 1), r'))
  /\ (forall k v r, GoStrings.Count k "=" = 0%nat -> GoStrings.Count v "=" = 0%nat ->
        UpdateHeaders [k ++ "=" ++ v] r
        = (Returned None, set_Headers (<[k := v]> (Headers r)) r)).
Proof.
  split; [intros hs r o r'; apply UpdateHeaders_returns_nil|].
  split; [apply UpdateHeaders_no_sep_panics|].
  intros k v r Hk Hv. cbn [UpdateHeaders].
  change (k ++ "=" ++ v) with (k ++ String "=" v).
  rewrite (Split_app_sep _ _ _ Hk), (Split_no_sep _ _ Hv). reflexivity.
Qed.

Lemma UpdateHeaders_behaviour_witness :
  (exists r', UpdateHeaders ["a=1"; "oops"; "b=2"] Mock.session0
              = (Panicked (PanicIndex 1 1), r'))
  /\ UpdateHeaders ["Auth-Token=abc"] Mock.session0
     = (Returned None,
        set_Headers (<["Auth-Token" := "abc"]> (Headers Mock.session0)) Mock.session0).
Proof.
  split.
  - apply (proj1 (proj2 UpdateHeaders_behaviour)).
    apply Exists_cons_tl, Exists_cons_hd. reflexivity.
  - apply (proj2 (proj2 UpdateHeaders_behaviour) "Auth-Token" "abc"); reflexivity.
Defined.

(** ** The response classifier *)

Definition abort_message : string := "Couldn't understand response".

(** The body of a response as the classifier decodes it: [None] where the
    read or the decoding fails. *)
Definition parsed_body `{GoLib World} (resp : Response) : option ErrResponse21 :=
  match fst (ioutil_ReadAll (Body resp)) with
  | ReadOk b => json_Unmarshal_ErrResponse21 b
  | ReadErr _ => None
  end.

Section Classifier.

Context `{GoLib World}.

Lemma handleBadResponse_not_401 (resp : Response) :
  StatusCode resp <> 401 ->
  handleBadResponse resp
  = if httpErrors (StatusCode resp) then Returned (Some (ErrStatus (Status resp)))
    else Returned None.
Proof.
  intros Hne. unfold handleBadResponse.
  destruct (Z.eqb_spec (StatusCode resp) 401); [contradiction|reflexivity].
Qed.

Lemma handleBadResponse_401_cases (resp : Response) :
  StatusCode resp = 401 ->
  handleBadResponse resp
  = match parsed_body resp with
    | None => Panicked (PanicMsg abort_message)
    | Some e => if String.eqb (Name e) permDeniedError then Returned (Some Retry)
                else Returned (Some (ErrStatus (Status resp)))
    end.
Proof.
  intros Hc. unfold handleBadResponse, parsed_body. rewrite Hc. simpl.
  destruct (fst (ioutil_ReadAll (Body resp))) as [b|msg]; [|reflexivity].
  destruct (json_Unmarshal_ErrResponse21 b); reflexivity.
Qed.

(** C3, as the code has it.  On a 401 whose body cannot be read or cannot be
    decoded as an error response the classifier does not return: it panics
    with [Couldn't understand response].  On a 401 whose decoded body has a
    name other than [PermissionDeniedError] it returns the error made of
    the status text. *)
Theorem handleBadResponse_401 (resp : Response) :
  StatusCode resp = 401 ->
  (parsed_body resp = None ->
   handleBadResponse resp = Panicked (PanicMsg abort_message))
  /\ (forall e, parsed_body resp = Some e -> Name e <> permDeniedError ->
        handleBadResponse resp = Returned (Some (ErrStatus (Status resp)))).
Proof.
  intros Hc. rewrite (handleBadResponse_401_cases resp Hc). split.
  - now intros ->.
  - intros e -> Hn. now destruct (String.eqb_spec (Name e) permDeniedError).
Qed.

(** C6, as the code has it.  The classifier answers [Retry] exactly on a
    401 whose decoded body is named [PermissionDeniedError].  A status in
    {400, 401, 422, 500} that is not answered [Retry] gives the error made
    of the status text, unless it is a 401 whose body cannot be read or
    decoded: there the classifier panics.  Every other status gives [nil],
    whatever the body. *)
Theorem handleBadResponse_classes (resp : Response) :
  (handleBadResponse resp = Returned (Some Retry) <->
   StatusCode resp = 401
   /\ exists e, parsed_body resp = Some e /\ Name e = permDeniedError)
  /\ (httpErrors (StatusCode resp) = true ->
      handleBadResponse resp <> Returned (Some Retry) ->
      (StatusCode resp = 401 -> is_Some (parsed_body resp)) ->
      handleBadResponse resp = Returned (Some (ErrStatus (Status resp))))
  /\ (StatusCode resp = 401 -> parsed_body resp = None ->
      handleBadResponse resp = Panicked (PanicMsg abort_message))
  /\ (httpErrors (StatusCode resp) = false ->
      handleBadResponse resp = Returned None).
Proof.
  destruct (Z.eq_dec (StatusCode resp) 401) as [Hc|Hc].
  - rewrite (handleBadResponse_401_cases resp Hc), Hc.
    destruct (parsed_body resp) as [e|].
    + destruct (String.eqb_spec (Name e) permDeniedError) as [Hn|Hn].
      * repeat split; try discriminate; try congruence; eauto.
      * repeat split; try discriminate; try congruence.
        intros (_ & e' & [= <-] & Hn'). contradiction.
    + repeat split; try discriminate; try congruence.
      * intros (_ & e' & He & _). discriminate He.
      * intros _ _ Hs. destruct (Hs eq_refl) as [e He]. discriminate He.
  - rewrite (handleBadResponse_not_401 resp Hc).
    destruct (httpErrors (StatusCode resp)); repeat split;
      try discriminate; try congruence; try tauto.
Qed.

End Classifier.

Definition response_401 (body : string) : Response :=
  {| StatusCode := 401; Status := "401 Unauthorized"; Body := [ReadOk body] |}.

Lemma handleBadResponse_401_witness :
  handleBadResponse (response_401 "gateway timeout")
  = Panicked (PanicMsg abort_message)
  /\ handleBadResponse (response_401 (Mock.object [("name", "AuthFailedError")]))
     = Returned (Some (ErrStatus "401 Unauthorized")).
Proof.
  split.
  - apply (proj1 (handleBadResponse_401 (response_401 "gateway timeout") eq_refl)).
    reflexivity.
  - eapply (proj2 (handleBadResponse_401
                     (response_401 (Mock.object [("name", "AuthFailedError")])) eq_refl));
      [reflexivity|].
    intros Hn. vm_compute in Hn. discriminate Hn.
Defined.

(** C3 as stated fails on a 401 whose body is no JSON text: the call does
    not return an error value, it panics. *)
Lemma handleBadResponse_malformed_401_panics :
  Mock.unmarshal_ErrResponse21 "<html>Unauthorized</html>" = None
  /\ handleBadResponse (response_401 "<html>Unauthorized</html>")
     = Panicked (PanicMsg abort_message)
  /\ forall e, handleBadResponse (response_401 "<html>Unauthorized</html>")
               <> Returned e.
Proof.
  split; [reflexivity|]. split; [reflexivity|]. intros e He. discriminate He.
Qed.

Definition response_500 : Response :=
  {| StatusCode := 500; Status := "500 Internal Server Error";
     Body := [ReadOk "boom"] |}.

Definition response_200 : Response :=
  {| StatusCode := 200; Status := "200 OK"; Body := [ReadOk "anything"] |}.

Lemma handleBadResponse_classes_witness :
  handleBadResponse (response_401 Mock.denied_body) = Returned (Some Retry)
  /\ handleBadResponse response_500 = Returned (Some (ErrStatus (Status response_500)))
  /\ handleBadResponse (response_401 "{") = Panicked (PanicMsg abort_message)
  /\ handleBadResponse response_200 = Returned None.
Proof.
  split; [|split; [|split]].
  - apply (proj1 (handleBadResponse_classes (response_401 Mock.denied_body))).
    split; [reflexivity|]. eexists. split; reflexivity.
  - apply (proj1 (proj2 (handleBadResponse_classes response_500)));
      [reflexivity|discriminate|discriminate].
  - apply (proj1 (proj2 (proj2 (handleBadResponse_classes (response_401 "{")))));
      reflexivity.
  - apply (proj2 (proj2 (proj2 (handleBadResponse_classes response_200)))).
    reflexivity.
Defined.

(** C6 as stated fails on a 401 with an empty body: the status is in the
    error set, the answer is not [Retry], and no error is returned, since
    the call panics. *)
Lemma handleBadResponse_empty_401_no_error :
  httpErrors 401 = true
  /\ handleBadResponse (response_401 EmptyString) <> Returned (Some Retry)
  /\ (forall e, handleBadResponse (response_401 EmptyString) <> Returned (Some e))
  /\ handleBadResponse (response_401 EmptyString) = Panicked (PanicMsg abort_message).
Proof.
  split; [reflexivity|]. split; [discriminate|]. split; [discriminate|reflexivity].
Qed.

(** ** [Login] *)

Section LoginFacts.

Context `{GoLib World}.

Lemma Login_with_cached
    (P : string -> bool -> list Value -> M World (string * option error))
    (st : State World) :
  APIToken (session st) <> EmptyString ->
  Login_with P st = (Returned None, st).
Proof.
  intros Ht. unfold Login_with, bind, gets, ret.
  destruct (String.eqb_spec (APIToken (session st)) ""); [contradiction|reflexivity].
Qed.

(** A [Login] that returns [nil] leaves a token in the session. *)
Lemma Login_with_nil_token
    (P : string -> bool -> list Value -> M World (string * option error))
    (st st' : State World) :
  Login_with P st = (Returned None, st') ->
  APIToken (session st') <> EmptyString.
Proof.
  unfold Login_with, bind, gets, ret, modify.
  destruct (String.eqb_spec (APIToken (session st)) "") as [Ht|Ht].
  - destruct (P _ _ _ st) as [[[resp [err|]]|p| | |] st1]; try discriminate.
    + destruct (json_Unmarshal_ErrResponse21 resp); discriminate.
    + destruct (json_Unmarshal_ReturnLogin resp) as [l|]; [|discriminate].
      destruct (String.eqb_spec (Key l) ""); [discriminate|].
      intros [= <-]. assumption.
  - intros [= <-]. assumption.
Qed.

(** C7.  With a token cached, [Login] returns [nil] and leaves the whole
    state as it was: the session, the world behind the transport, and the
    trace, so no request is sent.  After any [Login] that returned [nil], a
    second [Login] is of that kind. *)
Theorem Login_cached_token_noop :
  (forall fuel st, APIToken (session st) <> EmptyString ->
     Login fuel st = (Returned None, st))
  /\ (forall fuel fuel' st st', Login fuel st = (Returned None, st') ->
        Login fuel' st' = (Returned None, st')).
Proof.
  split.
  - intros fuel st. apply Login_with_cached.
  - intros fuel fuel' st st' Hl. apply Login_with_cached.
    exact (Login_with_nil_token _ _ _ Hl).
Qed.

End LoginFacts.

Lemma Login_cached_token_noop_witness :
  let script := [Mock.ok (Mock.object [("key", "tok")])] in
  let st := Mock.start Mock.session0 ∅ script in
  let st1 := snd (Login 1 st) in
  Login 0 (Mock.start (set_APIToken "tok" Mock.session0) ∅ script)
  = (Returned None, Mock.start (set_APIToken "tok" Mock.session0) ∅ script)
  /\ APIToken (session st1) = "tok"
  /\ length (requests (trace st1)) = 1%nat
  /\ Login 1 st1 = (Returned None, st1).
Proof.
  intros script st st1. split; [|split; [|split]].
  - apply (proj1 (Login_cached_token_noop) 0%nat). discriminate.
  - reflexivity.
  - reflexivity.
  - apply (proj2 (Login_cached_token_noop) 1%nat 1%nat st). vm_compute. reflexivity.
Defined.

(** ** The template renderer *)

Lemma append_empty_r (s : string) : s ++ EmptyString = s.
Proof.
  induction s as [|a s IH]; [reflexivity|].
  change (String a (s ++ EmptyString) = String a s). now f_equal.
Qed.

Lemma HasPrefix_app (p s : string) : GoStrings.HasPrefix (p ++ s) p = true.
Proof.
  induction p as [|a p IH]; [reflexivity|].
  change (Ascii.eqb a a && GoStrings.HasPrefix (p ++ s) p = true).
  now rewrite Ascii.eqb_refl, IH.
Qed.

Lemma missing_keys_nil (fstring : string) (argm : gmap string string) :
  (forall k, is_Some (argm !! k) -> GoStrings.Contains fstring (placeholder k) = true) ->
  missing_keys fstring argm = [].
Proof.
  intros Hall. unfold missing_keys.
  assert (forall k, k ∈ (map_to_list argm).*1 ->
                    GoStrings.Contains fstring (placeholder k) = true) as Hl.
  { intros k Hk. apply list_elem_of_fmap in Hk as ([k' v] & -> & Hkv).
    apply elem_of_map_to_list in Hkv. apply Hall. now exists v. }
  induction ((map_to_list argm).*1) as [|k l IH]; [reflexivity|].
  rewrite filter_cons_False.
  - apply IH. intros k' Hk'. apply Hl. now right.
  - rewrite (Hl k); [discriminate|now left].
Qed.

Lemma missing_keys_found (fstring : string) (argm : gmap string string) (k : string) :
  is_Some (argm !! k) -> GoStrings.Contains fstring (placeholder k) = false ->
  exists k' rest, missing_keys fstring argm = k' :: rest.
Proof.
  intros [v Hv] Hk. unfold missing_keys.
  assert (k ∈ filter (fun k => GoStrings.Contains fstring (placeholder k) = false)
                     (map_to_list argm).*1) as Hin.
  { apply list_elem_of_filter. split; [exact Hk|].
    apply list_elem_of_fmap. exists (k, v). split; [reflexivity|].
    now apply elem_of_map_to_list. }
  destruct (filter _ _) as [|k' rest]; [inversion Hin|eauto].
Qed.

Section Renderer.

Context `{GoLib World}.

Lemma parseTemplate_map (fstring : string) (argm : gmap string string)
    (rest : list Value) (tpl : Template) :
  template_Parse fstring = Some tpl ->
  parseTemplate fstring (VMapString argm :: rest)
  = match missing_keys fstring argm with
    | k :: _ => Returned (EmptyString, Some (ErrArgNotFound fstring k))
    | [] => match template_Execute tpl argm with
            | None => Returned (EmptyString, Some (ErrLib "template.Execute"))
            | Some s => Returned (s, None)
            end
    end.
Proof. intros Hp. unfold parseTemplate. rewrite Hp. reflexivity. Qed.

(** The two templates of the package render to the URL of the session. *)
Lemma parseTemplate_conn (r : APIConnection) :
  parseTemplate (if Secure r then secConnTemplate else connTemplate)
                [VMapString (conn_args r)]
  = Returned (base_url r, None).
Proof.
  assert (template.render (if Secure r then secConnTemplate else connTemplate)
                          (conn_args r) = Some (base_url r)) as Hr.
  { unfold template.render, base_url, scheme, conn_args.
    destruct (Secure r);
      match goal with
      | |- context [template.parse ?t] =>
          let v := eval vm_compute in (template.parse t) in
          change (template.parse t) with v
      end;
      cbn [template.exec]; simplify_map_eq; now rewrite append_empty_r. }
  destruct (template_render _ _ _ Hr) as (tpl & Hp & He).
  rewrite (parseTemplate_map _ _ _ _ Hp), He.
  replace (missing_keys _ (conn_args r)) with (@nil string); [reflexivity|].
  destruct (Secure r); vm_compute; reflexivity.
Qed.

Lemma UpdateHeaders_token (tok : string) (r : APIConnection) :
  UpdateHeaders ["Auth-Token=" ++ tok] r
  = (Returned None, set_Headers (<["Auth-Token" := token_header tok]> (Headers r)) r).
Proof.
  cbn [UpdateHeaders].
  change ("Auth-Token=" ++ tok) with ("Auth-Token" ++ String "=" tok).
  rewrite Split_app_sep by reflexivity. unfold token_header.
  destruct (GoStrings.Split tok "=") as [|h1 t] eqn:E; [now apply Split_not_nil in E|].
  reflexivity.
Qed.

Lemma Join_pair (a b sep : string) : GoStrings.Join [a; b] sep = a ++ sep ++ b.
Proof. reflexivity. Qed.

(** [prepConn] always succeeds: it returns the URL of the session with the
    escaped query parameters, having stored the token header and escaped
    the parameters where they lie. *)
Lemma prepConn_spec (st : State World) :
  prepConn st
  = (Returned (with_query (base_url (session st))
                 (map url.QueryEscape (elems (QParams (session st)) st)), None),
     prepared st).
Proof.
  unfold prepConn, bind, gets, lift. cbv zeta.
  rewrite parseTemplate_conn.
  unfold prepared, auth_header, UpdateHeadersM, ret, escape_QParams, escaped, elems,
    with_query, with_heap, with_conn.
  destruct st as [r h w t]. cbn [session heap world trace].
  set (b := base_url r). clearbody b.
  destruct (String.eqb (APIToken r) USetToken) eqn:Et.
  - destruct r as [mu me en hd q ho av po us pw se tok te].
    cbn [session heap world trace QParams].
    destruct q as [l|]; [|reflexivity].
    destruct (h !! l) as [ps|] eqn:El; cbn [session heap world trace QParams].
    + rewrite lookup_insert_eq. cbn [default]. rewrite Join_pair.
      now destruct (0 <? _)%nat.
    + rewrite El. reflexivity.
  - rewrite UpdateHeaders_token.
    destruct r as [mu me en hd q ho av po us pw se tok te].
    unfold set_Headers.
    cbn [session heap world trace QParams Headers APIToken].
    destruct q as [l|]; [|reflexivity].
    destruct (h !! l) as [ps|] eqn:El; cbn [session heap world trace QParams].
    + rewrite lookup_insert_eq. cbn [default]. rewrite Join_pair.
      now destruct (0 <? _)%nat.
    + rewrite El. reflexivity.
Qed.

Lemma HasPrefix_app_l (s t p : string) :
  GoStrings.HasPrefix s p = true -> GoStrings.HasPrefix (s ++ t) p = true.
Proof.
  revert s. induction p as [|a p IH]; intros s; [reflexivity|].
  destruct s as [|c s]; [discriminate|]. cbn [GoStrings.HasPrefix].
  change (String c s ++ t) with (String c (s ++ t)).
  intros [Hc Hp]%andb_prop. rewrite Hc. cbn. now apply IH.
Qed.

Lemma with_query_prefix (base p : string) (q : list string) :
  GoStrings.HasPrefix base p = true ->
  GoStrings.HasPrefix (with_query base q) p = true.
Proof.
  intros Hb. unfold with_query. destruct (0 <? _)%nat; [|exact Hb].
  now apply HasPrefix_app_l.
Qed.

(** C8.  [parseTemplate] returns an error when the template does not parse
    and, for a template that parses and a map argument, when the text of the
    template holds no placeholder [{{.k}}] for some key [k] of the map.
    When it holds one for every key, [parseTemplate] returns what executing
    the template gives.  [prepConn], which renders one of the two templates
    of the package, always returns a URL, and the URL begins with
    [https://] when [Secure] is set and with [http://] otherwise. *)
Theorem parseTemplate_strict_and_scheme :
  (forall fstring args, template_Parse fstring = None ->
     parseTemplate fstring args
     = Returned (EmptyString, Some (ErrLib "template.Parse")))
  /\ (forall fstring tpl argm rest k,
        template_Parse fstring = Some tpl ->
        is_Some (argm !! k) ->
        GoStrings.Contains fstring (placeholder k) = false ->
        exists k', parseTemplate fstring (VMapString argm :: rest)
                   = Returned (EmptyString, Some (ErrArgNotFound fstring k')))
  /\ (forall fstring tpl argm rest out,
        template_Parse fstring = Some tpl ->
        (forall k, is_Some (argm !! k) ->
                   GoStrings.Contains fstring (placeholder k) = true) ->
        template_Execute tpl argm = Some out ->
        parseTemplate fstring (VMapString argm :: rest) = Returned (out, None))
  /\ (forall st : State World,
        exists conn st', prepConn st = (Returned (conn, None), st')
          /\ GoStrings.HasPrefix conn
               (if Secure (session st) then "https://" else "http://") = true).
Proof.
  split; [|split; [|split]].
  - intros fstring args Hp. unfold parseTemplate. now rewrite Hp.
  - intros fstring tpl argm rest k Hp Hk Hc.
    rewrite (parseTemplate_map _ _ _ _ Hp).
    destruct (missing_keys_found _ _ _ Hk Hc) as (k' & l & ->). now exists k'.
  - intros fstring tpl argm rest out Hp Hall He.
    rewrite (parseTemplate_map _ _ _ _ Hp), (missing_keys_nil _ _ Hall), He.
    reflexivity.
  - intros st. rewrite prepConn_spec. eexists _, _. split; [reflexivity|].
    apply with_query_prefix. unfold base_url, scheme.
    destruct (Secure (session st)); apply HasPrefix_app.
Qed.

End Renderer.

Lemma parseTemplate_strict_and_scheme_witness :
  parseTemplate "http://{{.hostname" [VMapString {["hostname" := "h"]}]
  = Returned (EmptyString, Some (ErrLib "template.Parse"))
  /\ (exists k', parseTemplate "http://{{.hostname}}/"
                   [VMapString (<["port" := "80"]> {["hostname" := "h"]})]
                 = Returned (EmptyString,
                             Some (ErrArgNotFound "http://{{.hostname}}/" k')))
  /\ parseTemplate "http://{{.hostname}}/" [VMapString {["hostname" := "h"]}]
     = Returned ("http://h/", None).
Proof.
  split; [|split].
  - apply (proj1 parseTemplate_strict_and_scheme). reflexivity.
  - eapply (proj1 (proj2 parseTemplate_strict_and_scheme) _ _ _ _ "port").
    + vm_compute. reflexivity.
    + eexists. vm_compute. reflexivity.
    + vm_compute. reflexivity.
  - eapply (proj1 (proj2 (proj2 parseTemplate_strict_and_scheme))).
    + vm_compute. reflexivity.
    + intros k [v Hv]. destruct (decide (k = "hostname")) as [->|Hne].
      * vm_compute. reflexivity.
      * rewrite lookup_singleton_ne in Hv by congruence. discriminate Hv.
    + vm_compute. reflexivity.
Defined.

(** ** The request pipeline *)

Lemma same_config_refl r : same_config r r.
Proof. repeat split. Qed.

Lemma same_config_trans r1 r2 r3 :
  same_config r1 r2 -> same_config r2 r3 -> same_config r1 r3.
Proof. unfold same_config. intuition congruence. Qed.

Lemma url_of_config r r' e q : same_config r r' -> url_of r e q = url_of r' e q.
Proof.
  intros (H1 & H2 & H3 & _ & _ & H6 & _). unfold url_of, scheme.
  now rewrite H1, H2, H3, H6.
Qed.

Lemma string_length_app (s t : string) :
  String.length (s ++ t) = (String.length s + String.length t)%nat.
Proof.
  induction s as [|a s IH]; [reflexivity|].
  change (String a s ++ t) with (String a (s ++ t)). cbn. now rewrite IH.
Qed.

Lemma escape_byte_length (a : ascii) :
  (1 <= String.length (url.escape_byte a))%nat
  /\ (needs_hex a = true -> String.length (url.escape_byte a) = 3%nat).
Proof.
  unfold url.escape_byte, needs_hex.
  destruct (url.unreserved a); [split; [cbn; lia|discriminate]|].
  destruct (N_of_ascii a =? 32)%N; split; cbn; try lia; discriminate.
Qed.

Lemma QueryEscape_length_le (s : string) :
  (String.length s <= String.length (url.QueryEscape s))%nat.
Proof.
  induction s as [|a s IH]; [reflexivity|].
  cbn [url.QueryEscape String.length]. rewrite string_length_app.
  pose proof (proj1 (escape_byte_length a)). lia.
Qed.

Lemma QueryEscape_length_lt (s : string) :
  any_byte needs_hex s = true ->
  (String.length s < String.length (url.QueryEscape s))%nat.
Proof.
  induction s as [|a s IH]; [discriminate|].
  cbn [url.QueryEscape String.length any_byte]. rewrite string_length_app.
  pose proof (escape_byte_length a) as [H1 H3].
  pose proof (QueryEscape_length_le s).
  destruct (needs_hex a); [rewrite (H3 eq_refl); lia|].
  intros Hs. specialize (IH Hs). lia.
Qed.

(** Escaping a string that holds a byte to escape leaves a [+] or a [%],
    which a second escaping writes as three bytes. *)
Lemma QueryEscape_marks (p : string) :
  changed_by_escape p = true -> any_byte needs_hex (url.QueryEscape p) = true.
Proof.
  unfold changed_by_escape. induction p as [|a p IH]; [discriminate|].
  cbn [url.QueryEscape any_byte]. unfold url.escape_byte.
  destruct (url.unreserved a) eqn:Eu.
  - cbn [negb orb]. intros Hp. change (String a "" ++ url.QueryEscape p)
      with (String a (url.QueryEscape p)).
    cbn [any_byte]. rewrite (IH Hp). apply orb_true_r.
  - intros _. destruct (N_of_ascii a =? 32)%N; reflexivity.
Qed.

Lemma QueryEscape_twice (p : string) :
  changed_by_escape p = true ->
  url.QueryEscape (url.QueryEscape p) <> url.QueryEscape p
  /\ url.QueryEscape (url.QueryEscape p) <> p.
Proof.
  intros Hp. pose proof (QueryEscape_length_lt _ (QueryEscape_marks _ Hp)) as Hlt.
  pose proof (QueryEscape_length_le p) as Hle.
  split; intros Heq; rewrite Heq in Hlt; lia.
Qed.

Section PipelineFacts.
Context `{GoLib World}.

Definition request_of (st : State World) (conn : string) (body : option string) : Request :=
  {| req_method := Method (session st); req_url := conn;
     req_headers := Headers (session st); req_body := body |}.

Lemma transmit_inv (conn : string) (b : option string) (st st' : State World)
    (o : outcome attempt_result) :
  transmit conn b st = (o, st') ->
  session st' = session st /\ heap st' = heap st
  /\ (trace st' = trace st \/ trace st' = (trace st ++ [EvDo (request_of st conn b)])%list)
  /\ (forall rbody err, o = Returned (Classified rbody err) ->
        trace st' = (trace st ++ [EvDo (request_of st conn b)])%list).
Proof.
  unfold transmit, bind, gets, call_NewUUID, call_Client_Do, lift, ret, request_of.
  destruct (negb _).
  - destruct (decide _); intros [= <- <-]; repeat split; auto; discriminate.
  - destruct (NewUUID (world st)) as [[u|] w].
    + destruct (Client_Do _ _) as [[msg|resp] w'].
      * intros [= <- <-]. cbn. repeat split; auto; discriminate.
      * destruct (ioutil_ReadAll (Body resp)) as [[rbody|msg] rest].
        -- destruct (handleBadResponse _); intros [= <- <-]; cbn;
             repeat split; auto; discriminate.
        -- intros [= <- <-]; cbn; repeat split; auto; discriminate.
    + intros [= <- <-]. cbn. repeat split; auto; discriminate.
Qed.

Lemma attempt_inv (m e : string) (b : option string) (q : slice) (s : bool)
    (st st' : State World) (o : outcome attempt_result) :
  attempt m e b q s st = (o, st') ->
  same_config (session st) (session st')
  /\ (heap st' = heap st \/ heap st' = escaped q (heap st))
  /\ (trace st' = trace st
      \/ exists req, trace st' = (trace st ++ [EvDo req])%list
           /\ req_url req = url_of (session st) e (map url.QueryEscape (elems q st))
           /\ heap st' = escaped q (heap st))
  /\ (forall rbody err, o = Returned (Classified rbody err) ->
        Mutex (session st') = true /\ heap st' = escaped q (heap st)
        /\ exists req, trace st' = (trace st ++ [EvDo req])%list
             /\ req_url req = url_of (session st) e (map url.QueryEscape (elems q st))).
Proof.
  unfold attempt, bind, Mutex_Lock, lift, modify.
  destruct (Mutex (session st)) eqn:Em.
  - intros [= <- <-]. repeat split; auto using same_config_refl; discriminate.
  - destruct (resolve_method m) as [m'| | | |];
      try (intros [= <- <-]; destruct st as [[] ? ? ?]; cbn; repeat split; auto; discriminate).
    rewrite prepConn_spec.
    set (st0 := with_conn _ (with_conn _ st)).
    intros Ht. apply transmit_inv in Ht as (Hs & Hh & Ht & Hc).
    assert (url_of (session st) e (map url.QueryEscape (elems q st))
            = with_query (base_url (session st0))
                (map url.QueryEscape (elems (QParams (session st0)) st0))) as Hu.
    { destruct st as [[] ? ? ?]. reflexivity. }
    assert (heap (prepared st0) = escaped q (heap st)) as Hhp.
    { destruct st as [[] ? ? ?]. reflexivity. }
    assert (same_config (session st) (session (prepared st0)) /\ Mutex (session (prepared st0)) = true) as [Hcf Hmu].
    { destruct st as [[] ? ? ?]. unfold prepared, auth_header. cbn.
      destruct (String.eqb _ _); cbn; repeat split. }
    rewrite Hs, Hh. rewrite Hhp. rewrite <- Hu in *.
    split; [exact Hcf|]. split; [now right|]. split.
    + destruct Ht as [Ht|Ht]; [now left|right]. eexists. now split; [exact Ht|split].
    + intros rbody err Ho. split; [exact Hmu|]. split; [reflexivity|].
      eexists. split; [exact (Hc _ _ Ho)|reflexivity].
Qed.

Lemma bind_inv {A B} (c : M World A) (k : A -> M World B) (st st' : State World)
    (o : outcome B) :
  bind c k st = (o, st') ->
  (exists a st1, c st = (Returned a, st1) /\ k a st1 = (o, st'))
  \/ (exists o1, c st = (o1, st') /\ returns o1 = false /\ returns o = false).
Proof.
  unfold bind. destruct (c st) as [[a|p| | |] st1]; intros Hk.
  - left. eauto.
  - right. injection Hk as <- <-. eexists. repeat split.
  - right. injection Hk as <- <-. eexists. repeat split.
  - right. injection Hk as <- <-. eexists. repeat split.
  - right. injection Hk as <- <-. eexists. repeat split.
Qed.

(** [keeps q st st']: from [st] to [st'] the configuration of the session is
    the same, and so is every backing array but that of the slice [q]. *)
Definition keeps (q : slice) (st st' : State World) : Prop :=
  same_config (session st) (session st')
  /\ forall l, q <> Some l -> heap st' !! l = heap st !! l.

Lemma keeps_refl q st : keeps q st st.
Proof. split; [apply same_config_refl|reflexivity]. Qed.

Lemma keeps_trans q st1 st2 st3 : keeps q st1 st2 -> keeps q st2 st3 -> keeps q st1 st3.
Proof.
  intros [Hc1 Hh1] [Hc2 Hh2]. split; [eapply same_config_trans; eassumption|].
  intros l Hl. now rewrite Hh2, Hh1.
Qed.

Lemma keeps_None q st st' : keeps None st st' -> keeps q st st'.
Proof. intros [Hc Hh]. split; [exact Hc|]. intros l _. now apply Hh. Qed.

Lemma escaped_other (q : slice) (h : gmap nat (list string)) (l : nat) :
  q <> Some l -> escaped q h !! l = h !! l.
Proof.
  intros Hq. unfold escaped. destruct q as [l'|]; [|reflexivity].
  destruct (h !! l'); [|reflexivity]. apply lookup_insert_ne. congruence.
Qed.

Lemma attempt_keeps m e b q s st o st' :
  attempt m e b q s st = (o, st') -> keeps q st st'.
Proof.
  intros Ha. apply attempt_inv in Ha as (Hc & [Hh|Hh] & _); split; auto;
    intros l Hl; rewrite Hh; [reflexivity|now apply escaped_other].
Qed.

Lemma Mutex_Unlock_inv st o st' :
  Mutex_Unlock st = (o, st') ->
  keeps None st st' /\ trace st' = trace st
  /\ (Mutex (session st) = true /\ o = Returned tt /\ Mutex (session st') = false
      \/ Mutex (session st) = false /\ o = Crashed /\ st' = st).
Proof.
  unfold Mutex_Unlock. destruct (Mutex (session st)) eqn:Em; intros [= <- <-].
  - destruct st as [[] ? ? ?]. cbn in *. repeat split. left. repeat split.
  - repeat split; auto using same_config_refl.
Qed.

Lemma body_verb_keeps (dr : doRequest_t) verb e s bodyp st o st' :
  (forall m e b s r st o st', dr m e b None s r st = (o, st') -> keeps None st st') ->
  body_verb dr verb e s bodyp st = (o, st') -> keeps None st st'.
Proof.
  intros Hdr. unfold body_verb, bind, lift, ret.
  destruct (parseParams bodyp) as [[params [err|]]| | | |];
    try (intros [= <- <-]; apply keeps_refl).
  destruct (json_Marshal params); [apply Hdr|intros [= <- <-]; apply keeps_refl].
Qed.

Lemma Login_with_keeps P st o st' :
  (forall e s bodyp st o st', P e s bodyp st = (o, st') -> keeps None st st') ->
  Login_with P st = (o, st') -> keeps None st st'.
Proof.
  intros HP. unfold Login_with, bind, gets, ret, modify.
  destruct (String.eqb _ _); [|intros [= <- <-]; apply keeps_refl].
  destruct (P _ _ _ st) as [[[resp [err|]]|p| | |] st1] eqn:EP;
    apply HP in EP; try (intros [= <- <-]; exact EP).
  - destruct (json_Unmarshal_ErrResponse21 resp); intros [= <- <-]; exact EP.
  - destruct (json_Unmarshal_ReturnLogin resp) as [l|]; [|intros [= <- <-]; exact EP].
    destruct (String.eqb _ _); intros [= <- <-]; [exact EP|].
    eapply keeps_trans; [exact EP|]. destruct st1 as [[] ? ? ?]. repeat split.
Qed.

Lemma relogin_with_keeps (dr : doRequest_t) st o st' :
  (forall m e b s r st o st', dr m e b None s r st = (o, st') -> keeps None st st') ->
  relogin_with dr st = (o, st') -> keeps None st st'.
Proof.
  intros Hdr. unfold relogin_with. intros Hb.
  apply bind_inv in Hb as [(? & st1 & Hu & Hb)|(? & Hu & _)];
    apply Mutex_Unlock_inv in Hu as (Hk1 & _); [|exact Hk1].
  eapply keeps_trans; [exact Hk1|].
  unfold bind, modify in Hb.
  apply Login_with_keeps in Hb.
  - eapply keeps_trans; [|exact Hb]. destruct st1 as [[] ? ? ?]. repeat split.
  - intros. eapply body_verb_keeps; eassumption.
Qed.

Lemma doRequest_keeps (fuel : nat) :
  forall m e b q s r st o st',
    doRequest fuel m e b q s r st = (o, st') -> keeps q st st'.
Proof.
  induction fuel as [|f IH]; intros m e b q s r st o st'.
  - intros [= <- <-]. apply keeps_refl.
  - cbn [doRequest]. intros Hb.
    apply bind_inv in Hb as [(a & st1 & Ha & Hb)|(? & Ha & _)];
      apply attempt_keeps in Ha; [|exact Ha].
    eapply keeps_trans; [exact Ha|]. clear Ha.
    destruct a as [err|rbody err]; [injection Hb as <- <-; apply keeps_refl|].
    assert (forall o2 st2,
      (if is_Retry err && negb r
       then bind (relogin_with (doRequest f))
              (fun _ => bind (doRequest f m e b q s true) (fun _ => ret tt))
       else ret tt) st1 = (o2, st2) -> keeps q st1 st2) as Hretry.
    { intros o2 st2. destruct (is_Retry err && negb r); [|intros [= <- <-]; apply keeps_refl].
      intros Hr. apply bind_inv in Hr as [(? & st1' & Hl & Hr)|(? & Hl & _)];
        apply relogin_with_keeps in Hl; try (apply keeps_None; exact Hl);
        try (intros; eapply IH; eassumption).
      eapply keeps_trans; [apply keeps_None; exact Hl|].
      apply bind_inv in Hr as [(? & st1'' & Hd & Hr)|(? & Hd & _)];
        apply IH in Hd; [|exact Hd].
      injection Hr as <- <-. exact Hd. }
    apply bind_inv in Hb as [(? & st2 & Hr & Hb)|(? & Hr & _)];
      apply Hretry in Hr; [|exact Hr].
    eapply keeps_trans; [exact Hr|].
    apply bind_inv in Hb as [(? & st3 & Hu & Hb)|(? & Hu & _)];
      apply Mutex_Unlock_inv in Hu as (Hk & _); apply keeps_None with (q := q) in Hk;
      [|exact Hk].
    injection Hb as <- <-. exact Hk.
Qed.

Lemma pair_eta {A B} (x : A * B) (a : A) : fst x = a -> x = (a, snd x).
Proof. destruct x. cbn. now intros ->. Qed.

(** The retry branch, entered from the state [st1] the first attempt left. *)
Lemma doRequest_retry_eq f m e b q s st rbody st1 :
  attempt m e b q s st = (Returned (Classified rbody (Some Retry)), st1) ->
  doRequest (S f) m e b q s false st
  = bind (relogin_with (doRequest f)) (fun _ =>
      bind (doRequest f m e b q s true) (fun _ =>
        bind Mutex_Unlock (fun _ => ret (rbody, Some Retry)))) st1.
Proof.
  intros Ha. cbn [doRequest]. unfold bind at 1. rewrite Ha.
  cbn [is_Retry negb andb]. unfold bind, ret.
  destruct (relogin_with (doRequest f) st1) as [[?|?| | |] st2]; try reflexivity.
  destruct (doRequest f m e b q s true st2) as [[?|?| | |] st3]; reflexivity.
Qed.

(** A call that is itself the retry never logs in and sends at most one
    request; when its attempt is classified it returns with the mutex
    unlocked. *)
Lemma doRequest_retried f m e b q s st o st' :
  doRequest f m e b q s true st = (o, st') ->
  logins (trace st') = logins (trace st)
  /\ (trace st' = trace st \/ exists req, trace st' = (trace st ++ [EvDo req])%list
           /\ req_url req = url_of (session st) e (map url.QueryEscape (elems q st))).
Proof.
  destruct f as [|f]; [intros [= <- <-]; auto|].
  cbn [doRequest]. intros Hb.
  assert (forall st1 o1, attempt m e b q s st = (o1, st1) ->
            logins (trace st1) = logins (trace st)
            /\ (trace st1 = trace st \/ exists req, trace st1 = (trace st ++ [EvDo req])%list
                 /\ req_url req = url_of (session st) e (map url.QueryEscape (elems q st))))
    as Hatt.
  { intros st1 o1 Ha. apply attempt_inv in Ha as (_ & _ & [Ht|(req & Ht & Hu & _)] & _);
      rewrite Ht.
    - auto.
    - split; [|right; eauto]. unfold logins. rewrite List.filter_app, length_app.
      cbn. lia. }
  apply bind_inv in Hb as [(a & st1 & Ha & Hb)|(? & Ha & _)];
    apply Hatt in Ha; [|exact Ha].
  destruct a as [err|rbody err]; [injection Hb as <- <-; exact Ha|].
  cbn [negb] in Hb. rewrite andb_false_r in Hb.
  unfold bind at 1, ret at 1 in Hb.
  apply bind_inv in Hb as [(? & st3 & Hu & Hb)|(? & Hu & _)];
    apply Mutex_Unlock_inv in Hu as (_ & Ht & _); [injection Hb as <- <-|];
    rewrite Ht; exact Ha.
Qed.

Lemma doRequest_retried_classified f m e b q s st rbody err st1 :
  attempt m e b q s st = (Returned (Classified rbody err), st1) ->
  exists st', doRequest (S f) m e b q s true st = (Returned (rbody, err), st')
              /\ Mutex (session st') = false.
Proof.
  intros Ha. cbn [doRequest]. unfold bind at 1. rewrite Ha.
  cbn [negb]. rewrite andb_false_r.
  unfold bind at 1, ret at 1. unfold bind, Mutex_Unlock, ret.
  apply attempt_inv in Ha as (_ & _ & _ & Hc).
  destruct (Hc _ _ eq_refl) as (Hm & _). rewrite Hm.
  eexists. split; [reflexivity|]. now destruct st1 as [[] ? ? ?].
Qed.

(** Where the first attempt is answered [Retry]: a call that returns,
    returns the body of the first attempt and [Retry]. *)
Lemma doRequest_Retry_returned f m e b q s st rbody st1 out st' :
  attempt m e b q s st = (Returned (Classified rbody (Some Retry)), st1) ->
  doRequest f m e b q s false st = (Returned out, st') ->
  out = (rbody, Some Retry).
Proof.
  intros Ha. destruct f as [|f]; [discriminate|].
  rewrite (doRequest_retry_eq _ _ _ _ _ _ _ _ _ Ha). intros Hb.
  apply bind_inv in Hb as [(? & st2 & _ & Hb)|(? & _ & _ & Hf)]; [|discriminate].
  apply bind_inv in Hb as [(? & st3 & _ & Hb)|(? & _ & _ & Hf)]; [|discriminate].
  apply bind_inv in Hb as [(? & st4 & _ & Hb)|(? & _ & _ & Hf)]; [|discriminate].
  now injection Hb as <- _.
Qed.

(** Where the retried attempt gets its response classified, the call does
    not return: its last [Unlock] finds the mutex unlocked. *)
Lemma doRequest_Retry_crashes f m e b q s st rbody st1 o2 st2 rbody2 err2 st3 :
  attempt m e b q s st = (Returned (Classified rbody (Some Retry)), st1) ->
  relogin_with (doRequest (S f)) st1 = (Returned o2, st2) ->
  attempt m e b q s st2 = (Returned (Classified rbody2 err2), st3) ->
  exists st', doRequest (S (S f)) m e b q s false st = (Crashed, st').
Proof.
  intros Ha Hl Hr. rewrite (doRequest_retry_eq _ _ _ _ _ _ _ _ _ Ha).
  unfold bind at 1. rewrite Hl.
  destruct (doRequest_retried_classified f _ _ _ _ _ _ _ _ _ Hr) as (st' & Hd & Hm).
  unfold bind at 1. rewrite Hd. unfold bind, Mutex_Unlock. rewrite Hm. eauto.
Qed.

(** C10.  Let a call with the query parameters [qs], held in the slice at
    [l], have its first attempt answered [Retry].  The first request went
    out with each parameter escaped, and the escaped strings now lie in the
    caller's slice.  The login in between leaves them there.  The retried
    call escapes them again where they lie: the request it sends carries
    each parameter escaped twice.  For a parameter that holds a byte the
    escaping changes, the twice escaped form differs from the once escaped
    form and from the parameter itself. *)
Theorem retry_escapes_query_twice f m e b l s (st st1 : State World) qs rbody :
  heap st !! l = Some qs ->
  attempt m e b (Some l) s st = (Returned (Classified rbody (Some Retry)), st1) ->
  doRequest (S f) m e b (Some l) s false st
  = bind (relogin_with (doRequest f)) (fun _ =>
      bind (doRequest f m e b (Some l) s true) (fun _ =>
        bind Mutex_Unlock (fun _ => ret (rbody, Some Retry)))) st1
  /\ (exists req1, trace st1 = (trace st ++ [EvDo req1])%list
        /\ req_url req1 = url_of (session st) e (map url.QueryEscape qs))
  /\ heap st1 !! l = Some (map url.QueryEscape qs)
  /\ (forall o2 st2, relogin_with (doRequest f) st1 = (o2, st2) ->
        heap st2 !! l = Some (map url.QueryEscape qs)
        /\ (forall o3 st3, doRequest f m e b (Some l) s true st2 = (o3, st3) ->
              trace st3 = trace st2
              \/ exists req2, trace st3 = (trace st2 ++ [EvDo req2])%list
                   /\ req_url req2
                      = url_of (session st) e
                          (map url.QueryEscape (map url.QueryEscape qs)))
        /\ (forall rbody2 err2 st3,
              attempt m e b (Some l) s st2 = (Returned (Classified rbody2 err2), st3) ->
              exists req2, trace st3 = (trace st2 ++ [EvDo req2])%list
                   /\ req_url req2
                      = url_of (session st) e
                          (map url.QueryEscape (map url.QueryEscape qs))))
  /\ (forall p, changed_by_escape p = true ->
        url.QueryEscape (url.QueryEscape p) <> url.QueryEscape p
        /\ url.QueryEscape (url.QueryEscape p) <> p).
Proof.
  intros Hl Ha. split; [now apply doRequest_retry_eq|].
  pose proof (attempt_keeps _ _ _ _ _ _ _ _ Ha) as [Hc1 _].
  apply attempt_inv in Ha as (_ & _ & _ & Hc).
  destruct (Hc _ _ eq_refl) as (_ & Hh1 & req1 & Ht1 & Hu1).
  assert (elems (Some l) st = qs) as Hq by (cbn; now rewrite Hl).
  assert (heap st1 !! l = Some (map url.QueryEscape qs)) as Hl1.
  { rewrite Hh1. cbn. rewrite Hl. apply lookup_insert_eq. }
  rewrite Hq in Hu1.
  split; [eauto|]. split; [exact Hl1|]. split; [|apply QueryEscape_twice].
  intros o2 st2 Hr.
  apply relogin_with_keeps in Hr as [Hc2 Hh2];
    [|intros; eapply doRequest_keeps; eassumption].
  assert (heap st2 !! l = Some (map url.QueryEscape qs)) as Hl2
    by (rewrite Hh2; [exact Hl1|discriminate]).
  assert (elems (Some l) st2 = map url.QueryEscape qs) as Hq2 by (cbn; now rewrite Hl2).
  assert (forall q, url_of (session st2) e q = url_of (session st) e q) as Hu2.
  { intros q. symmetry. apply url_of_config. eapply same_config_trans; eassumption. }
  split; [exact Hl2|]. split.
  - intros o3 st3 Hd. apply doRequest_retried in Hd as (_ & [Ht|(req2 & Ht & Hu)]);
      [now left|right].
    exists req2. split; [exact Ht|]. now rewrite Hu, Hu2, Hq2.
  - intros rbody2 err2 st3 Ha2. apply attempt_inv in Ha2 as (_ & _ & _ & Hc').
    destruct (Hc' _ _ eq_refl) as (_ & _ & req2 & Ht & Hu).
    exists req2. split; [exact Ht|]. now rewrite Hu, Hu2, Hq2.
Qed.
End PipelineFacts.

Section VerbCalls.

Context `{GoLib World}.

Lemma body_verb_Retry_returned fuel verb e sens bodyp params body
    (st st1 st' : State World) rbody out :
  parseParams bodyp = Returned (params, None) ->
  json_Marshal params = Some body ->
  attempt verb e (Some body) None sens st
  = (Returned (Classified rbody (Some Retry)), st1) ->
  body_verb (doRequest fuel) verb e sens bodyp st = (Returned out, st') ->
  out = (rbody, Some Retry).
Proof.
  intros Hp Hm Ha. unfold body_verb, bind, lift. rewrite Hp, Hm.
  now apply doRequest_Retry_returned with (st1 := st1).
Qed.

(** C1, what the code does.  Let the first attempt of a verb call be
    answered [Retry].  Whenever the call returns, [Get], [Put], [Post] or
    [Delete] alike, it returns the body of the first attempt together with
    [Retry] itself: what the retried attempt returned is dropped.  And
    whenever the login returns and the retried attempt gets its response
    classified, the call does not return at all: the retried call has
    unlocked the mutex, and the last [Unlock] of the first call crashes. *)
Theorem verb_call_first_attempt_Retry :
  (forall fuel e q (st st1 st' : State World) rbody out,
     attempt "get" e None q false st
     = (Returned (Classified rbody (Some Retry)), st1) ->
     Get fuel e q st = (Returned out, st') -> out = (rbody, Some Retry))
  /\ (forall fuel e sens bodyp params body (st st1 st' : State World) rbody out,
        parseParams bodyp = Returned (params, None) ->
        json_Marshal params = Some body ->
        attempt "put" e (Some body) None sens st
        = (Returned (Classified rbody (Some Retry)), st1) ->
        Put fuel e sens bodyp st = (Returned out, st') -> out = (rbody, Some Retry))
  /\ (forall fuel e bodyp params body (st st1 st' : State World) rbody out,
        parseParams bodyp = Returned (params, None) ->
        json_Marshal params = Some body ->
        attempt "post" e (Some body) None false st
        = (Returned (Classified rbody (Some Retry)), st1) ->
        Post fuel e bodyp st = (Returned out, st') -> out = (rbody, Some Retry))
  /\ (forall fuel e bodyp params body (st st1 st' : State World) rbody out,
        parseParams bodyp = Returned (params, None) ->
        json_Marshal params = Some body ->
        attempt "delete" e (Some body) None false st
        = (Returned (Classified rbody (Some Retry)), st1) ->
        Delete fuel e bodyp st = (Returned out, st') -> out = (rbody, Some Retry))
  /\ (forall f m e b q s (st st1 st2 st3 : State World) rbody o2 rbody2 err2,
        attempt m e b q s st = (Returned (Classified rbody (Some Retry)), st1) ->
        relogin_with (doRequest (S f)) st1 = (Returned o2, st2) ->
        attempt m e b q s st2 = (Returned (Classified rbody2 err2), st3) ->
        exists st', doRequest (S (S f)) m e b q s false st = (Crashed, st')).
Proof.
  split; [|split; [|split; [|split]]].
  - intros fuel e q st st1 st' rbody out Ha. unfold Get.
    now apply doRequest_Retry_returned with (st1 := st1).
  - intros fuel e sens bodyp params body st st1 st' rbody out Hp Hm Ha.
    now apply body_verb_Retry_returned with (params := params) (body := body) (st1 := st1).
  - intros fuel e bodyp params body st st1 st' rbody out Hp Hm Ha.
    now apply body_verb_Retry_returned with (params := params) (body := body) (st1 := st1).
  - intros fuel e bodyp params body st st1 st' rbody out Hp Hm Ha.
    now apply body_verb_Retry_returned with (params := params) (body := body) (st1 := st1).
  - intros f m e b q s st st1 st2 st3 rbody o2 rbody2 err2.
    apply doRequest_Retry_crashes.
Qed.

End VerbCalls.

(** A 401 that asks for a new login and a login that succeeds.  Where the
    transport then fails, [Get] hands the caller [Retry]; where the retried
    request is answered 200, [Get] crashes. *)
Lemma verb_call_first_attempt_Retry_witness :
  let login_ok := Mock.ok (Mock.object [("key", "tok")]) in
  let st := Mock.start Mock.session0 ∅ [Mock.denied; login_ok] in
  let st1 := snd (attempt "get" "/app_instances" None None false st) in
  let sc := Mock.start Mock.session0 ∅ [Mock.denied; login_ok; Mock.ok "hello"] in
  (attempt "get" "/app_instances" None None false st
   = (Returned (Classified Mock.denied_body (Some Retry)), st1)
   /\ fst (Get 2 "/app_instances" None st) = Returned (Mock.denied_body, Some Retry))
  /\ exists st', doRequest 2 "get" "/app_instances" None None false false sc
                 = (Crashed, st').
Proof.
  intros login_ok st st1 sc. split.
  - assert (attempt "get" "/app_instances" None None false st
            = (Returned (Classified Mock.denied_body (Some Retry)), st1)) as Ha
      by (apply pair_eta; vm_compute; reflexivity).
    split; [exact Ha|].
    assert (returns (fst (Get 2 "/app_instances" None st)) = true) as Hr
      by (vm_compute; reflexivity).
    destruct (Get 2 "/app_instances" None st) as [o st'] eqn:Eg. cbn [fst] in *.
    destruct o as [out| | | |]; try discriminate Hr. f_equal.
    exact (proj1 verb_call_first_attempt_Retry 2%nat "/app_instances" None
             st st1 st' Mock.denied_body out Ha Eg).
  - eapply (proj2 (proj2 (proj2 (proj2 verb_call_first_attempt_Retry)))
              0%nat "get" "/app_instances" None None false sc _ _ _
              Mock.denied_body None "hello" None);
      match goal with
      | |- ?x = _ => apply (pair_eta x); vm_compute; reflexivity
      end.
Defined.

(** C2, what the code does.  [Login] sends its request through [Put], that
    is through [doRequest] with [retry] false.  When the login request is
    itself answered [Retry], the pipeline clears the token and calls [Login]
    again from inside the first [Login]: one [Get] below makes two calls of
    [Login] and four requests, three of them to the login endpoint, before
    it crashes on an [Unlock]. *)
Theorem login_request_retries_login :
  let st := Mock.start Mock.session0 ∅
              [Mock.denied; Mock.denied; Mock.ok (Mock.object [("key", "tok")]);
               Mock.ok "x"] in
  let r := Get 3 "/app_instances" None st in
  fst r = Crashed
  /\ logins (trace (snd r)) = 2%nat
  /\ map (fun q => (req_method q, req_url q)) (requests (trace (snd r)))
     = [("GET", "http://10.0.0.1:7717/v2.1/app_instances");
        ("PUT", "http://10.0.0.1:7717/v2.1/login");
        ("PUT", "http://10.0.0.1:7717/v2.1/login");
        ("PUT", "http://10.0.0.1:7717/v2.1/login")].
Proof. vm_compute. repeat split. Qed.

Lemma retry_escapes_query_twice_witness :
  let st := Mock.start Mock.session0 {[0%nat := ["a b"; "c=d"]]}
              [Mock.denied; Mock.ok (Mock.object [("key", "tok")]); Mock.ok "hello"] in
  let st1 := snd (attempt "get" "/app_instances" None (Some 0%nat) false st) in
  let st2 := snd (relogin_with (doRequest 1) st1) in
  let st3 := snd (attempt "get" "/app_instances" None (Some 0%nat) false st2) in
  heap st1 !! 0%nat = Some ["a+b"; "c%3Dd"]
  /\ exists req2, trace st3 = (trace st2 ++ [EvDo req2])%list
       /\ req_url req2 = "http://10.0.0.1:7717/v2.1/app_instances?a%2Bb&c%253Dd".
Proof.
  intros st st1 st2 st3. subst st3 st2 st1.
  destruct (retry_escapes_query_twice 1%nat "get" "/app_instances" None 0%nat false
              st (snd (attempt "get" "/app_instances" None (Some 0%nat) false st))
              ["a b"; "c=d"] Mock.denied_body)
    as (_ & _ & Hh & Hr & _).
  - vm_compute. reflexivity.
  - match goal with
    | |- ?x = _ => apply (pair_eta x); vm_compute; reflexivity
    end.
  - split; [exact Hh|].
    destruct (Hr _ _ (surjective_pairing _)) as (_ & _ & Hs).
    refine (Hs "hello" None _ _).
    match goal with
    | |- ?x = _ => apply (pair_eta x); vm_compute; reflexivity
    end.
Defined.

(** * Further properties of the pipeline *)

Section Forward.
Context `{GoLib World}.

Lemma attempt_built m m' e b q s (st : State World) :
  Mutex (session st) = false ->
  resolve_method m = Returned m' ->
  attempt m e b q s st
  = transmit (url_of (session st) e (map url.QueryEscape (elems q st))) b
             (built m' e q st).
Proof.
  intros Hm Hr. unfold attempt, bind, Mutex_Lock, lift, modify.
  rewrite Hm, Hr, prepConn_spec. unfold built.
  destruct st as [[] ? ? ?]. reflexivity.
Qed.

Lemma built_facts m e q (st : State World) :
  Mutex (session (built m e q st)) = true
  /\ Method (session (built m e q st)) = m
  /\ Endpoint (session (built m e q st)) = GoStrings.Trim e "/"
  /\ QParams (session (built m e q st)) = q
  /\ APIToken (session (built m e q st)) = APIToken (session st)
  /\ Headers (session (built m e q st))
     = (if String.eqb (APIToken (session st)) USetToken then Headers (session st)
        else <["Auth-Token" := token_header (APIToken (session st))]> (Headers (session st)))
  /\ heap (built m e q st) = escaped q (heap st)
  /\ world (built m e q st) = world st
  /\ trace (built m e q st) = trace st
  /\ same_config (session st) (session (built m e q st)).
Proof.
  destruct st as [[] ? ? ?]. unfold built, prepared, auth_header. cbn.
  destruct (String.eqb _ _); cbn; repeat split.
Qed.

Lemma transmit_DoErr conn b (st : State World) u w msg w' :
  http_NewRequest (Method (session st)) conn = true ->
  NewUUID (world st) = (Some u, w) ->
  Client_Do (request_of st conn b) w = (DoErr msg, w') ->
  transmit conn b st
  = (Returned (EarlyReturn (ErrLib msg)),
     log (EvDo (request_of st conn b)) (with_world w' st)).
Proof.
  intros Hn Hu Hd. unfold transmit, bind, gets, call_NewUUID, call_Client_Do, ret.
  rewrite Hn. cbn [negb]. rewrite Hu. cbn [world with_world].
  unfold request_of in Hd. rewrite Hd. destruct st. reflexivity.
Qed.

Lemma transmit_DoResp conn b (st : State World) u w resp w' rbody rest :
  http_NewRequest (Method (session st)) conn = true ->
  NewUUID (world st) = (Some u, w) ->
  Client_Do (request_of st conn b) w = (DoResp resp, w') ->
  ioutil_ReadAll (Body resp) = (ReadOk rbody, rest) ->
  transmit conn b st
  = (obind (handleBadResponse {| StatusCode := StatusCode resp;
                                 Status := Status resp; Body := rest |})
           (fun err => Returned (Classified rbody err)),
     log (EvDo (request_of st conn b)) (with_world w' st)).
Proof.
  intros Hn Hu Hd Hr. unfold transmit, bind, gets, call_NewUUID, call_Client_Do, ret, lift.
  rewrite Hn. cbn [negb]. rewrite Hu. cbn [world with_world].
  unfold request_of in Hd. rewrite Hd, Hr.
  destruct (handleBadResponse _); destruct st; reflexivity.
Qed.

Lemma doRequest_locked f m e b q s r (st : State World) :
  Mutex (session st) = true ->
  doRequest (S f) m e b q s r st = (Blocked, st).
Proof.
  intros Hm. cbn [doRequest]. unfold attempt, bind, Mutex_Lock. now rewrite Hm.
Qed.


(** What [doRequest] sends for a call, as a function of the state before. *)
Definition request_for (m e : string) (b : option string) (q : slice)
    (st : State World) : Request :=
  request_of (built m e q st)
             (url_of (session st) e (map url.QueryEscape (elems q st))) b.

(** The transport is reached with the request of the call and gives [d],
    leaving the world [w']: [http.NewRequest] accepts the request and
    [NewUUID] gives an identifier. *)
Definition answered (m e : string) (b : option string) (q : slice)
    (st : State World) (d : DoResult) (w' : World) : Prop :=
  http_NewRequest m (req_url (request_for m e b q st)) = true
  /\ exists u w, NewUUID (world st) = (Some u, w)
       /\ Client_Do (request_for m e b q st) w = (d, w').

(** The state after the request went out. *)
Definition sent (m e : string) (b : option string) (q : slice)
    (st : State World) (w' : World) : State World :=
  log (EvDo (request_for m e b q st)) (with_world w' (built m e q st)).

Lemma sent_facts m e b q (st : State World) w' :
  session (sent m e b q st w') = session (built m e q st)
  /\ heap (sent m e b q st w') = escaped q (heap st)
  /\ world (sent m e b q st w') = w'
  /\ trace (sent m e b q st w') = (trace st ++ [EvDo (request_for m e b q st)])%list.
Proof.
  destruct (built_facts m e q st) as (_ & _ & _ & _ & _ & _ & Hh & _ & Ht & _).
  unfold sent. rewrite <- Hh, <- Ht. now destruct (built m e q st).
Qed.

Lemma attempt_DoErr m m' e b q s (st : State World) msg w' :
  Mutex (session st) = false ->
  resolve_method m = Returned m' ->
  answered m' e b q st (DoErr msg) w' ->
  attempt m e b q s st = (Returned (EarlyReturn (ErrLib msg)), sent m' e b q st w').
Proof.
  intros Hm Hr (Hn & u & w & Hu & Hd).
  destruct (built_facts m' e q st) as (_ & Hbme & _ & _ & _ & _ & _ & Hbw & _ & _).
  rewrite (attempt_built _ _ _ _ _ _ _ Hm Hr). unfold request_for in *.
  erewrite transmit_DoErr; [reflexivity| | |exact Hd].
  - rewrite Hbme. exact Hn.
  - rewrite Hbw. exact Hu.
Qed.

Lemma attempt_DoResp m m' e b q s (st : State World) resp w' rbody rest :
  Mutex (session st) = false ->
  resolve_method m = Returned m' ->
  answered m' e b q st (DoResp resp) w' ->
  ioutil_ReadAll (Body resp) = (ReadOk rbody, rest) ->
  attempt m e b q s st
  = (obind (handleBadResponse {| StatusCode := StatusCode resp;
                                 Status := Status resp; Body := rest |})
           (fun err => Returned (Classified rbody err)),
     sent m' e b q st w').
Proof.
  intros Hm Hr (Hn & u & w & Hu & Hd) Hb.
  destruct (built_facts m' e q st) as (_ & Hbme & _ & _ & _ & _ & _ & Hbw & _ & _).
  rewrite (attempt_built _ _ _ _ _ _ _ Hm Hr). unfold request_for in *.
  erewrite transmit_DoResp; [reflexivity| | |exact Hd|exact Hb].
  - rewrite Hbme. exact Hn.
  - rewrite Hbw. exact Hu.
Qed.

Lemma sent_locked m e b q (st : State World) w' :
  Mutex (session (sent m e b q st w')) = true.
Proof.
  destruct (sent_facts m e b q st w') as (-> & _). apply built_facts.
Qed.

Lemma doRequest_DoErr f m m' e b q s r (st : State World) msg w' :
  Mutex (session st) = false ->
  resolve_method m = Returned m' ->
  answered m' e b q st (DoErr msg) w' ->
  doRequest (S f) m e b q s r st
  = (Returned (EmptyString, Some (ErrLib msg)), sent m' e b q st w').
Proof.
  intros Hm Hr Ha. cbn [doRequest]. unfold bind at 1.
  now rewrite (attempt_DoErr _ _ _ _ _ _ _ _ _ Hm Hr Ha).
Qed.

(** An answer the classifier does not turn into a retry. *)
Lemma doRequest_DoResp f m m' e b q s r (st : State World) resp w' rbody rest err :
  Mutex (session st) = false ->
  resolve_method m = Returned m' ->
  answered m' e b q st (DoResp resp) w' ->
  ioutil_ReadAll (Body resp) = (ReadOk rbody, rest) ->
  handleBadResponse {| StatusCode := StatusCode resp; Status := Status resp;
                       Body := rest |} = Returned err ->
  is_Retry err && negb r = false ->
  doRequest (S f) m e b q s r st
  = (Returned (rbody, err), with_conn (set_Mutex false) (sent m' e b q st w')).
Proof.
  intros Hm Hr Ha Hb Hc Hn. cbn [doRequest]. unfold bind at 1.
  rewrite (attempt_DoResp _ _ _ _ _ _ _ _ _ _ _ Hm Hr Ha Hb), Hc.
  cbn [obind]. rewrite Hn.
  unfold bind, ret, Mutex_Unlock. now rewrite sent_locked.
Qed.

Lemma handleBadResponse_other (resp : Response) :
  StatusCode resp <> 401 ->
  handleBadResponse resp
  = Returned (if httpErrors (StatusCode resp)
              then Some (ErrStatus (Status resp)) else None)
  /\ is_Retry (if httpErrors (StatusCode resp)
               then Some (ErrStatus (Status resp)) else None) = false.
Proof.
  intros Hc. rewrite handleBadResponse_not_401 by exact Hc.
  destruct (httpErrors (StatusCode resp)); split; reflexivity.
Qed.

(** X3. a 401 whose body can be read once.  [doRequest] reads the body to
    its end before it classifies, so the classifier reads nothing, cannot
    decode it, and panics: the call never reaches the retry. *)
Theorem unauthorized_read_once_panics f m m' e b q s r (st : State World)
    status c w' :
  Mutex (session st) = false ->
  resolve_method m = Returned m' ->
  answered m' e b q st
    (DoResp {| StatusCode := 401; Status := status; Body := [ReadOk c] |}) w' ->
  doRequest (S f) m e b q s r st
  = (Panicked (PanicMsg abort_message), sent m' e b q st w')
  /\ Mutex (session (sent m' e b q st w')) = true.
Proof.
  intros Hm Hr Ha. cbn [doRequest]. unfold bind at 1.
  erewrite attempt_DoResp; [|exact Hm|exact Hr|exact Ha|reflexivity].
  unfold handleBadResponse.
  cbn [StatusCode Status Body Z.eqb Pos.eqb fst ioutil_ReadAll obind].
  rewrite json_Unmarshal_empty. split; [reflexivity|].
  destruct (sent_facts m' e b q st w') as (-> & _).
  apply built_facts.
Qed.

(** X2. a transport failure.  The call returns the error with an empty body
    and leaves the mutex locked; every later call on the session blocks. *)
Theorem transport_error_locks_session f m m' e b q s r (st : State World) msg w' :
  Mutex (session st) = false ->
  resolve_method m = Returned m' ->
  answered m' e b q st (DoErr msg) w' ->
  doRequest (S f) m e b q s r st
  = (Returned (EmptyString, Some (ErrLib msg)), sent m' e b q st w')
  /\ forall f2 m2 e2 b2 q2 s2 r2,
       doRequest (S f2) m2 e2 b2 q2 s2 r2 (sent m' e b q st w')
       = (Blocked, sent m' e b q st w').
Proof.
  intros Hm Hr Ha. split.
  - now apply doRequest_DoErr.
  - intros. apply doRequest_locked, sent_locked.
Qed.

(** X1. an answer with a status other than 401.  The call sends one request,
    returns the body that was read together with [nil] or, for 400, 422
    and 500, the error made of the status text, and unlocks the mutex. *)
Theorem answered_call_returns f m m' e b q s r (st : State World) resp w' rbody rest :
  Mutex (session st) = false ->
  resolve_method m = Returned m' ->
  answered m' e b q st (DoResp resp) w' ->
  ioutil_ReadAll (Body resp) = (ReadOk rbody, rest) ->
  StatusCode resp <> 401 ->
  doRequest (S f) m e b q s r st
  = (Returned (rbody, if httpErrors (StatusCode resp)
                      then Some (ErrStatus (Status resp)) else None),
     with_conn (set_Mutex false) (sent m' e b q st w')).
Proof.
  intros Hm Hr Ha Hb Hc.
  destruct (handleBadResponse_other
              {| StatusCode := StatusCode resp; Status := Status resp; Body := rest |}
              Hc) as (Hh & Hn).
  cbn [StatusCode Status] in Hh, Hn.
  apply (doRequest_DoResp f m m' e b q s r st resp w' rbody rest _ Hm Hr Ha Hb Hh).
  now rewrite Hn.
Qed.
End Forward.

(** ** The method and the endpoint of a call *)

Lemma resolve_method_cases (method : string) :
  (GoStrings.ToLower method = "get" /\ resolve_method method = Returned "GET")
  \/ (GoStrings.ToLower method = "put" /\ resolve_method method = Returned "PUT")
  \/ (GoStrings.ToLower method = "post" /\ resolve_method method = Returned "POST")
  \/ (GoStrings.ToLower method = "delete" /\ resolve_method method = Returned "DELETE")
  \/ (~ In (GoStrings.ToLower method) ["get"; "put"; "post"; "delete"]
      /\ resolve_method method
         = Panicked (PanicMsg ("Did not understand method request " ++ method))).
Proof.
  unfold resolve_method.
  destruct (String.eqb_spec (GoStrings.ToLower method) "get") as [E1|N1]; [auto|].
  destruct (String.eqb_spec (GoStrings.ToLower method) "put") as [E2|N2]; [auto|].
  destruct (String.eqb_spec (GoStrings.ToLower method) "post") as [E3|N3]; [auto|].
  destruct (String.eqb_spec (GoStrings.ToLower method) "delete") as [E4|N4]; [auto 6|].
  do 4 right. split; [|reflexivity]. cbn. intuition congruence.
Qed.

Section Method.
Context `{GoLib World}.

(** X4.  A method other than get, put, post and delete, in whatever case
    it is written, makes the call panic after the mutex was locked: nothing
    else of the session changes, and the mutex stays locked. *)
Theorem unknown_method_panics_locked f method e b q s r (st : State World) :
  Mutex (session st) = false ->
  ~ In (GoStrings.ToLower method) ["get"; "put"; "post"; "delete"] ->
  doRequest (S f) method e b q s r st
  = (Panicked (PanicMsg ("Did not understand method request " ++ method)),
     with_conn (set_Mutex true) st).
Proof.
  intros Hm Hn. cbn [doRequest]. unfold attempt, bind, Mutex_Lock, lift. rewrite Hm.
  destruct (resolve_method_cases method) as [[E _]|[[E _]|[[E _]|[[E _]|[_ ->]]]]];
    try (exfalso; apply Hn; rewrite E; cbn; tauto).
  reflexivity.
Qed.

End Method.

Lemma TrimLeft_cons_sep (s : string) (c : ascii) :
  GoStrings.TrimLeft (String c s) c = GoStrings.TrimLeft s c.
Proof. cbn [GoStrings.TrimLeft]. now rewrite Ascii.eqb_refl. Qed.

Lemma TrimRight_snoc_sep (s : string) (c : ascii) :
  GoStrings.TrimRight (s ++ String c EmptyString) c = GoStrings.TrimRight s c.
Proof.
  induction s as [|a s IH].
  - change (EmptyString ++ String c "") with (String c "").
    cbn [GoStrings.TrimRight]. now rewrite Ascii.eqb_refl.
  - change (String a s ++ String c "") with (String a (s ++ String c "")).
    cbn [GoStrings.TrimRight]. now rewrite IH.
Qed.

Lemma TrimLeft_snoc_sep (s : string) (c : ascii) :
  GoStrings.TrimLeft (s ++ String c EmptyString) c
  = match GoStrings.TrimLeft s c with
    | EmptyString => EmptyString
    | t => t ++ String c EmptyString
    end.
Proof.
  induction s as [|a s IH].
  - change (EmptyString ++ String c "") with (String c "").
    cbn [GoStrings.TrimLeft]. now rewrite Ascii.eqb_refl.
  - change (String a s ++ String c "") with (String a (s ++ String c "")).
    cbn [GoStrings.TrimLeft]. destruct (Ascii.eqb a c); [exact IH|reflexivity].
Qed.

Lemma TrimLeft_idem (s : string) (c : ascii) :
  GoStrings.TrimLeft (GoStrings.TrimLeft s c) c = GoStrings.TrimLeft s c.
Proof.
  induction s as [|a s IH]; [reflexivity|].
  cbn [GoStrings.TrimLeft]. destruct (Ascii.eqb a c) eqn:E; [exact IH|].
  cbn [GoStrings.TrimLeft]. now rewrite E.
Qed.

(** Trimming on the right keeps the first byte of a string that does not
    begin with the separator. *)
Lemma TrimRight_head (s : string) (c : ascii) :
  match s with
  | String a _ =>
      Ascii.eqb a c = false ->
      exists t, GoStrings.TrimRight s c = String a t
  | EmptyString => True
  end.
Proof.
  destruct s as [|a s]; [exact I|]. intros E. cbn [GoStrings.TrimRight].
  destruct (GoStrings.TrimRight s c); [rewrite E|]; eauto.
Qed.

Lemma TrimLeft_head (s : string) (c : ascii) :
  match GoStrings.TrimLeft s c with
  | String a _ => Ascii.eqb a c = false
  | EmptyString => True
  end.
Proof.
  induction s as [|a s IH]; [exact I|].
  cbn [GoStrings.TrimLeft]. destruct (Ascii.eqb a c) eqn:E; [exact IH|exact E].
Qed.

Lemma TrimRight_idem (s : string) (c : ascii) :
  GoStrings.TrimRight (GoStrings.TrimRight s c) c = GoStrings.TrimRight s c.
Proof.
  induction s as [|a s IH]; [reflexivity|].
  cbn [GoStrings.TrimRight].
  destruct (GoStrings.TrimRight s c) as [|b t] eqn:Et.
  - destruct (Ascii.eqb a c) eqn:E; [reflexivity|].
    cbn [GoStrings.TrimRight]. now rewrite E.
  - cbn [GoStrings.TrimRight] in *. now rewrite IH.
Qed.

Lemma TrimLeft_TrimRight_head (s : string) (c : ascii) :
  match s with
  | String a _ => Ascii.eqb a c = false
  | EmptyString => True
  end ->
  GoStrings.TrimLeft (GoStrings.TrimRight s c) c = GoStrings.TrimRight s c.
Proof.
  destruct s as [|a s]; [reflexivity|]. intros E.
  destruct (TrimRight_head (String a s) c E) as [t ->].
  cbn [GoStrings.TrimLeft]. now rewrite E.
Qed.

Lemma Trim_surrounding_sep (e : string) (c : ascii) :
  GoStrings.Trim (String c e) c = GoStrings.Trim e c
  /\ GoStrings.Trim (e ++ String c EmptyString) c = GoStrings.Trim e c
  /\ GoStrings.Trim (GoStrings.Trim e c) c = GoStrings.Trim e c.
Proof.
  unfold GoStrings.Trim. split; [|split].
  - now rewrite TrimLeft_cons_sep.
  - rewrite TrimLeft_snoc_sep.
    destruct (GoStrings.TrimLeft e c) as [|a t]; [reflexivity|].
    apply TrimRight_snoc_sep.
  - rewrite TrimLeft_TrimRight_head; [apply TrimRight_idem|apply TrimLeft_head].
Qed.

Section Shape.
Context `{GoLib World}.

Lemma bind_ext {A B} (c1 c2 : M World A) (k1 k2 : A -> M World B) (st : State World) :
  c1 st = c2 st -> (forall a st', k1 a st' = k2 a st') ->
  bind c1 k1 st = bind c2 k2 st.
Proof.
  intros Hc Hk. unfold bind. rewrite Hc.
  destruct (c2 st) as [[a|p| | |] st']; auto.
Qed.

Lemma attempt_Trim m e1 e2 b q s (st : State World) :
  GoStrings.Trim e1 "/" = GoStrings.Trim e2 "/" ->
  attempt m e1 b q s st = attempt m e2 b q s st.
Proof. intros He. unfold attempt. now rewrite He. Qed.

Lemma doRequest_Trim fuel m e1 e2 b q s r (st : State World) :
  GoStrings.Trim e1 "/" = GoStrings.Trim e2 "/" ->
  doRequest fuel m e1 b q s r st = doRequest fuel m e2 b q s r st.
Proof.
  intros He. revert r st. induction fuel as [|f IH]; intros r st; [reflexivity|].
  cbn [doRequest]. apply bind_ext; [now apply attempt_Trim|].
  intros [err|rbody err] st1; [reflexivity|].
  apply bind_ext; [|reflexivity].
  destruct (is_Retry err && negb r); [|reflexivity].
  apply bind_ext; [reflexivity|]. intros _ st2.
  apply bind_ext; [apply IH|reflexivity].
Qed.

(** X5.  A slash before or after the endpoint changes nothing: the call
    with it and the call without it are the same in every state, up to the
    last retry. *)
Theorem endpoint_slashes_ignored fuel m e b q s r (st : State World) :
  doRequest fuel m (String "/" e) b q s r st = doRequest fuel m e b q s r st
  /\ doRequest fuel m (e ++ "/") b q s r st = doRequest fuel m e b q s r st.
Proof.
  split; apply doRequest_Trim; apply Trim_surrounding_sep.
Qed.

Lemma attempt_trace m m' e b q s (st st' : State World) o :
  Mutex (session st) = false ->
  resolve_method m = Returned m' ->
  attempt m e b q s st = (o, st') ->
  trace st' = trace st
  \/ trace st' = (trace st ++ [EvDo (request_for m' e b q st)])%list.
Proof.
  intros Hm Hr. rewrite (attempt_built _ _ _ _ _ _ _ Hm Hr). intros Ht.
  apply transmit_inv in Ht as (_ & _ & Ht & _).
  destruct (built_facts m' e q st) as (_ & _ & _ & _ & _ & _ & _ & _ & Hbt & _).
  rewrite Hbt in Ht. exact Ht.
Qed.

Lemma request_for_facts m e b q (st : State World) :
  req_method (request_for m e b q st) = m
  /\ req_url (request_for m e b q st)
     = url_of (session st) e (map url.QueryEscape (elems q st))
  /\ req_body (request_for m e b q st) = b
  /\ req_headers (request_for m e b q st)
     = if String.eqb (APIToken (session st)) USetToken then Headers (session st)
       else <["Auth-Token" := token_header (APIToken (session st))]>
              (Headers (session st)).
Proof.
  destruct (built_facts m e q st) as (_ & Hme & _ & _ & _ & Hh & _).
  unfold request_for, request_of. cbn [req_method req_url req_body req_headers].
  auto.
Qed.

(** X6.  One pass of [doRequest] over an unlocked session sends at most one
    request.  When it sends one, the request has the method in capitals,
    the URL made of the session's host, port and version, of the endpoint
    and of the escaped query parameters, the body as it was given, and the
    headers of the session with the [Auth-Token] header set from the token
    when there is one. *)
Theorem request_of_call m m' e b q s (st st' : State World) o :
  Mutex (session st) = false ->
  resolve_method m = Returned m' ->
  attempt m e b q s st = (o, st') ->
  trace st' = trace st
  \/ exists req, trace st' = (trace st ++ [EvDo req])%list
       /\ req_method req = m'
       /\ req_url req = url_of (session st) e (map url.QueryEscape (elems q st))
       /\ req_body req = b
       /\ req_headers req
          = if String.eqb (APIToken (session st)) USetToken then Headers (session st)
            else <["Auth-Token" := token_header (APIToken (session st))]>
                   (Headers (session st)).
Proof.
  intros Hm Hr Ha. destruct (attempt_trace _ _ _ _ _ _ _ _ _ Hm Hr Ha) as [Ht|Ht];
    [now left|right].
  exists (request_for m' e b q st). split; [exact Ht|].
  apply request_for_facts.
Qed.

End Shape.

Lemma Split_prefixed (k v : string) :
  GoStrings.Count k "=" = 0%nat ->
  exists t, GoStrings.Split (k ++ String "=" v) "=" = k :: token_header v :: t.
Proof.
  intros Hk. rewrite (Split_app_sep _ _ _ Hk). unfold token_header.
  destruct (GoStrings.Split v "=") as [|h t] eqn:E; [now apply Split_not_nil in E|].
  now exists t.
Qed.

(** What follows the first [=] of a token, a tenant, a user name or a
    password is lost. *)
Lemma token_header_app_sep (p rest : string) :
  token_header (p ++ String "=" rest) = token_header p.
Proof.
  unfold token_header. induction p as [|a p IH].
  - change (EmptyString ++ String "=" rest) with (String "=" rest).
    cbn [GoStrings.Split]. now rewrite Ascii.eqb_refl.
  - change (String a p ++ String "=" rest) with (String a (p ++ String "=" rest)).
    cbn [GoStrings.Split]. destruct (Ascii.eqb a "="); [reflexivity|].
    destruct (GoStrings.Split (p ++ String "=" rest) "=") as [|x xs] eqn:E1;
      [now apply Split_not_nil in E1|].
    destruct (GoStrings.Split p "=") as [|y ys] eqn:E2;
      [now apply Split_not_nil in E2|].
    now rewrite IH.
Qed.

(** Two string parameters under keys without [=]. *)
Lemma parseParams_two_strings (k1 v1 k2 v2 : string) :
  GoStrings.Count k1 "=" = 0%nat ->
  GoStrings.Count k2 "=" = 0%nat ->
  parseParams [VString (k1 ++ String "=" v1); VString (k2 ++ String "=" v2)]
  = Returned (<[k2 := Spec.coerce (token_header v2)]>
                (<[k1 := Spec.coerce (token_header v1)]> ∅), None).
Proof.
  intros H1 H2. unfold parseParams. cbn [parseParams_loop].
  destruct (Split_prefixed k1 v1 H1) as [t1 ->].
  destruct (Split_prefixed k2 v2 H2) as [t2 ->].
  rewrite !coerce_code. reflexivity.
Qed.

(** X9.  The parameters [Login] builds from the user name and the password
    are encoded, whatever the two strings are, without error, and not as
    they were given: of each only the text before its first [=] reaches the
    request body, and a user name or password that reads [true] or [false]
    reaches it as a boolean. *)
Theorem parseParams_credentials (username password : string) :
  parseParams [VString ("name=" ++ username); VString ("password=" ++ password)]
  = Returned (credentials username password, None)
  /\ credentials username password !! "name"
     = Some (Spec.coerce (token_header username))
  /\ credentials username password !! "password"
     = Some (Spec.coerce (token_header password))
  /\ (forall rest, credentials username (password ++ String "=" rest)
                    = credentials username password)
  /\ credentials username "true" !! "password" = Some (VBool true)
  /\ credentials username "false" !! "password" = Some (VBool false).
Proof.
  split; [exact (parseParams_two_strings "name" username "password" password
                   eq_refl eq_refl)|].
  unfold credentials. split; [|split; [|split; [|split]]].
  - rewrite lookup_insert_ne by discriminate. apply lookup_insert_eq.
  - apply lookup_insert_eq.
  - intros rest. now rewrite token_header_app_sep.
  - apply lookup_insert_eq.
  - apply lookup_insert_eq.
Qed.

Section LoginRun.
Context `{GoLib World}.

(** [Login] on a session without token is the login request followed by the
    decoding of its answer. *)
Lemma Login_unfold fuel (st : State World) body :
  APIToken (session st) = EmptyString ->
  json_Marshal (credentials (Username (session st)) (Password (session st))) = Some body ->
  Login fuel st
  = bind (doRequest fuel "put" "login" (Some body) None true false)
      (fun x => match x with
       | (resp, Some err) =>
           match json_Unmarshal_ErrResponse21 resp with
           | None => ret (Some err)
           | Some e => ret (Some (ErrMessage (Message e)))
           end
       | (resp, None) =>
           match json_Unmarshal_ReturnLogin resp with
           | None => ret (Some (ErrLib "json.Unmarshal"))
           | Some l =>
               if String.eqb (Key l) "" then ret (Some (ErrNoToken resp))
               else bind (modify (with_conn (set_APIToken (Key l)))) (fun _ => ret None)
           end
       end) st.
Proof.
  intros Ht Hm. unfold Login, Login_with, Put, body_verb.
  unfold bind at 1, gets at 1. rewrite Ht. cbn [String.eqb].
  unfold bind at 2, lift at 1.
  change ("name=" ++ Username (session st))
    with ("name" ++ String "=" (Username (session st))).
  change ("password=" ++ Password (session st))
    with ("password" ++ String "=" (Password (session st))).
  rewrite (parseParams_two_strings "name" _ "password" _ eq_refl eq_refl).
  fold (credentials (Username (session st)) (Password (session st))).
  rewrite Hm. reflexivity.
Qed.


(** X10. [Login] on a session without token, when the login request is
    answered with a status other than 401. *)
Theorem Login_answered f (st : State World) body resp w' rbody rest :
  Mutex (session st) = false ->
  APIToken (session st) = EmptyString ->
  json_Marshal (credentials (Username (session st)) (Password (session st))) = Some body ->
  answered "PUT" "login" (Some body) None st (DoResp resp) w' ->
  ioutil_ReadAll (Body resp) = (ReadOk rbody, rest) ->
  StatusCode resp <> 401 ->
  let st1 := with_conn (set_Mutex false) (sent "PUT" "login" (Some body) None st w') in
  Login (S f) st
  = if httpErrors (StatusCode resp) then
      (Returned (Some match json_Unmarshal_ErrResponse21 rbody with
                      | Some e => ErrMessage (Message e)
                      | None => ErrStatus (Status resp)
                      end), st1)
    else
      match json_Unmarshal_ReturnLogin rbody with
      | None => (Returned (Some (ErrLib "json.Unmarshal")), st1)
      | Some l =>
          if String.eqb (Key l) "" then (Returned (Some (ErrNoToken rbody)), st1)
          else (Returned None, with_conn (set_APIToken (Key l)) st1)
      end.
Proof.
  intros Hm Ht Hb Ha Hr Hc st1. rewrite (Login_unfold _ _ _ Ht Hb).
  unfold bind at 1.
  destruct (handleBadResponse_other
              {| StatusCode := StatusCode resp; Status := Status resp; Body := rest |}
              Hc) as (Hh & Hn).
  cbn [StatusCode Status] in Hh, Hn.
  rewrite (doRequest_DoResp f "put" "PUT" "login" (Some body) None true false
             st resp w' rbody rest _ Hm eq_refl Ha Hr Hh)
    by now rewrite Hn.
  fold st1. destruct (httpErrors (StatusCode resp)).
  - destruct (json_Unmarshal_ErrResponse21 rbody); reflexivity.
  - destruct (json_Unmarshal_ReturnLogin rbody) as [l|]; [|reflexivity].
    destruct (String.eqb (Key l) ""); reflexivity.
Qed.

(** X11. [Login] when the transport fails.  The empty body does not decode,
    so the error of the transport is returned; the mutex stays locked. *)
Theorem Login_transport_error f (st : State World) body msg w' :
  Mutex (session st) = false ->
  APIToken (session st) = EmptyString ->
  json_Marshal (credentials (Username (session st)) (Password (session st))) = Some body ->
  answered "PUT" "login" (Some body) None st (DoErr msg) w' ->
  Login (S f) st
  = (Returned (Some (ErrLib msg)), sent "PUT" "login" (Some body) None st w')
  /\ Mutex (session (sent "PUT" "login" (Some body) None st w')) = true
  /\ APIToken (session (sent "PUT" "login" (Some body) None st w')) = EmptyString.
Proof.
  intros Hm Ht Hb Ha. rewrite (Login_unfold _ _ _ Ht Hb). unfold bind at 1.
  rewrite (doRequest_DoErr f "put" "PUT" "login" (Some body) None
             true false st msg w' Hm eq_refl Ha).
  rewrite json_Unmarshal_empty. split; [reflexivity|].
  destruct (sent_facts "PUT" "login" (Some body) None st w') as (-> & _).
  destruct (built_facts "PUT" "login" None st) as (Hl & _ & _ & _ & Hk & _).
  now rewrite Hl, Hk.
Qed.

Lemma relogin_with_locked (dr : doRequest_t) (st : State World) :
  Mutex (session st) = true ->
  relogin_with dr st = Login_with (body_verb dr "put") (relogin_state st).
Proof.
  intros Hm. unfold relogin_with, bind, Mutex_Unlock, modify. now rewrite Hm.
Qed.

(** X8. the header of a cleared token.  After a call on a session with a
    token was answered [Retry], the retry branch clears the token but not
    the [Auth-Token] header the call stored: [Login] runs on a session
    without token that still holds the header, and every request sent from
    there carries it. *)
Theorem cleared_token_header_is_sent m e b q s (st st1 : State World) rbody
    (dr : doRequest_t) :
  APIToken (session st) <> EmptyString ->
  attempt m e b q s st = (Returned (Classified rbody (Some Retry)), st1) ->
  relogin_with dr st1 = Login_with (body_verb dr "put") (relogin_state st1)
  /\ APIToken (session (relogin_state st1)) = EmptyString
  /\ Headers (session (relogin_state st1)) !! "Auth-Token"
     = Some (token_header (APIToken (session st)))
  /\ forall m2 m2' e2 b2 q2 s2 o2 st2,
       resolve_method m2 = Returned m2' ->
       attempt m2 e2 b2 q2 s2 (relogin_state st1) = (o2, st2) ->
       trace st2 = trace (relogin_state st1)
       \/ exists req, trace st2 = (trace (relogin_state st1) ++ [EvDo req])%list
            /\ req_headers req !! "Auth-Token"
               = Some (token_header (APIToken (session st))).
Proof.
  intros Ht Ha.
  assert (Mutex (session st) = false) as Hm.
  { destruct (Mutex (session st)) eqn:E; [|reflexivity].
    unfold attempt, bind, Mutex_Lock in Ha. rewrite E in Ha. discriminate Ha. }
  destruct (resolve_method m) as [m'| | | |] eqn:Hr;
    try (unfold attempt, bind, Mutex_Lock, lift in Ha; rewrite Hm, Hr in Ha;
         discriminate Ha).
  pose proof Ha as Ha'. rewrite (attempt_built _ _ _ _ _ _ _ Hm Hr) in Ha'.
  apply transmit_inv in Ha' as (Hs & _).
  destruct (built_facts m' e q st) as (Hl & _ & _ & _ & _ & Hh & _).
  assert (Headers (session st1) !! "Auth-Token"
          = Some (token_header (APIToken (session st)))) as Hh1.
  { rewrite Hs, Hh. destruct (String.eqb_spec (APIToken (session st)) USetToken);
      [contradiction|apply lookup_insert_eq]. }
  assert (session (relogin_state st1)
          = set_APIToken USetToken (set_Mutex false (session st1))) as Hrs
    by now destruct st1.
  split; [apply relogin_with_locked; now rewrite Hs|].
  split; [now rewrite Hrs|]. split; [now rewrite Hrs|].
  intros m2 m2' e2 b2 q2 s2 o2 st2 Hr2 Ha2.
  eapply attempt_trace in Ha2 as [Ht2|Ht2];
    [now left| |now rewrite Hrs|exact Hr2].
  right. exists (request_for m2' e2 b2 q2 (relogin_state st1)).
  split; [exact Ht2|].
  destruct (request_for_facts m2' e2 b2 q2 (relogin_state st1)) as (_ & _ & _ & ->).
  rewrite Hrs. exact Hh1.
Qed.

End LoginRun.

(** ** Header entries *)

(** What [UpdateHeaders] stores for one entry that holds a [=]: under the
    text before the first [=], the text between the first and the second. *)
Definition store_entry (h : gmap string string) (entry : string) : gmap string string :=
  match Spec.split_first entry "=" with
  | Some (k, v) => <[k := token_header v]> h
  | None => h
  end.

Lemma set_Headers_twice h1 h2 r : set_Headers h2 (set_Headers h1 r) = set_Headers h2 r.
Proof. reflexivity. Qed.

Lemma set_Headers_same r : set_Headers (Headers r) r = r.
Proof. now destruct r. Qed.

Lemma Headers_set h r : Headers (set_Headers h r) = h.
Proof. reflexivity. Qed.

Lemma Split_entry (entry : string) :
  GoStrings.Count entry "=" <> 0%nat ->
  exists k v t, Spec.split_first entry "=" = Some (k, v)
                /\ GoStrings.Split entry "=" = k :: token_header v :: t.
Proof.
  intros Hc. pose proof (split_first_Count entry "=") as Hs.
  destruct (Spec.split_first entry "=") as [[k v]|] eqn:E; [|contradiction].
  exists k, v. rewrite (Split_first _ _ _ _ E). unfold token_header.
  destruct (GoStrings.Split v "=") as [|h t] eqn:Ev; [now apply Split_not_nil in Ev|].
  now exists t.
Qed.

Lemma UpdateHeaders_good (hs : list string) (r : APIConnection) :
  Forall (fun h => GoStrings.Count h "=" <> 0%nat) hs ->
  forall rest,
    UpdateHeaders (hs ++ rest)%list r
    = UpdateHeaders rest (set_Headers (fold_left store_entry hs (Headers r)) r).
Proof.
  intros Hhs. revert r. induction Hhs as [|h hs Hh _ IH]; intros r rest.
  - cbn [app fold_left]. now rewrite set_Headers_same.
  - cbn [app UpdateHeaders fold_left].
    destruct (Split_entry h Hh) as (k & v & t & Hk & ->).
    assert (store_entry (Headers r) h = <[k := token_header v]> (Headers r)) as ->
      by (unfold store_entry; now rewrite Hk).
    now rewrite IH, Headers_set, set_Headers_twice.
Qed.

(** X14. [UpdateHeaders] on a list of entries.  When every entry holds a
    [=], each is stored in turn and [nil] is returned.  When an entry
    without [=] follows entries with one, the call panics, the entries
    before it are stored, and those after it are not. *)
Theorem UpdateHeaders_stores_in_turn (good rest : list string) (bad : string)
    (r : APIConnection) :
  Forall (fun h => GoStrings.Count h "=" <> 0%nat) good ->
  UpdateHeaders good r
  = (Returned None, set_Headers (fold_left store_entry good (Headers r)) r)
  /\ (GoStrings.Count bad "=" = 0%nat ->
      UpdateHeaders (good ++ bad :: rest)%list r
      = (Panicked (PanicIndex 1 1),
         set_Headers (fold_left store_entry good (Headers r)) r)).
Proof.
  intros Hg. split.
  - rewrite <- (app_nil_r good) at 1. now rewrite (UpdateHeaders_good _ _ Hg).
  - intros Hb. rewrite (UpdateHeaders_good _ _ Hg). cbn [UpdateHeaders].
    now rewrite (Split_no_sep _ _ Hb).
Qed.

(** ** Template arguments *)

(** What [parseTemplate] takes from one string argument: an argument with
    exactly one [=] gives an entry, every other argument nothing. *)
Definition template_entry (argm : gmap string string) (arg : string) : gmap string string :=
  if Nat.eqb (GoStrings.Count arg "=") 1 then
    match Spec.split_first arg "=" with
    | Some (k, v) => <[k := v]> argm
    | None => argm
    end
  else argm.

Lemma Split_length (s : string) (c : ascii) :
  length (GoStrings.Split s c) = S (GoStrings.Count s c).
Proof.
  induction s as [|a s IH]; [reflexivity|].
  cbn [GoStrings.Split GoStrings.Count]. destruct (Ascii.eqb a c).
  - cbn. now rewrite IH.
  - destruct (GoStrings.Split s c) as [|x xs] eqn:E; [now apply Split_not_nil in E|].
    cbn in *. lia.
Qed.

Lemma parseTemplate_args_strings (ss : list string) (argm : gmap string string) :
  parseTemplate_args (VString <$> ss) argm = Returned (fold_left template_entry ss argm).
Proof.
  revert argm. induction ss as [|s ss IH]; intros argm; [reflexivity|].
  cbn [fmap list_fmap parseTemplate_args fold_left].
  assert (template_entry argm s
          = match GoStrings.Split s "=" with
            | [x0; x1] => <[x0 := x1]> argm
            | _ => argm
            end) as ->; [|destruct (GoStrings.Split s "=") as [|x0 [|x1 [|x2 t]]]; apply IH].
  unfold template_entry.
  destruct (Nat.eqb_spec (GoStrings.Count s "=") 1) as [E|N].
  - now destruct (Split_one_sep _ _ E) as (k & v & -> & ->).
  - pose proof (Split_length s "=") as Hl.
    destruct (GoStrings.Split s "=") as [|x0 [|x1 [|x2 t]]]; cbn in Hl;
      try reflexivity. lia.
Qed.

(** A first argument that is neither a string nor a [map[string]string]. *)
Definition no_template_args (v : Value) : bool :=
  match v with
  | VString _ | VMapString _ => false
  | _ => true
  end.

Definition not_string (v : Value) : bool :=
  match v with VString _ => false | _ => true end.

Lemma parseTemplate_args_stops (ss : list string) (v : Value) (rest : list Value)
    (argm : gmap string string) :
  not_string v = true ->
  parseTemplate_args ((VString <$> ss) ++ v :: rest)%list argm
  = Panicked (PanicTypeAssert v).
Proof.
  intros Hv. revert argm. induction ss as [|s ss IH]; intros argm.
  - destruct v; try discriminate Hv; reflexivity.
  - cbn [fmap list_fmap app parseTemplate_args].
    destruct (GoStrings.Split s "=") as [|x0 [|x1 [|x2 t]]]; apply IH.
Qed.

Section TemplateArgs.
Context `{GoLib World}.

(** X15. the arguments of [parseTemplate], for a template that parses.
    Without arguments the call panics on [args[0]].  String arguments count
    as entries where they hold exactly one [=] and are passed over
    otherwise; a later argument that is no string panics.  A first argument
    of any other type than string and [map[string]string] renders the
    template with no entries at all. *)
Theorem parseTemplate_arguments (fstring : string) (tpl : Template) :
  template_Parse fstring = Some tpl ->
  parseTemplate fstring [] = Panicked (PanicIndex 0 0)
  /\ (forall s ss,
        parseTemplate fstring (VString s :: (VString <$> ss))
        = parseTemplate fstring [VMapString (fold_left template_entry (s :: ss) ∅)])
  /\ (forall s ss v rest, not_string v = true ->
        parseTemplate fstring (VString s :: ((VString <$> ss) ++ v :: rest)%list)
        = Panicked (PanicTypeAssert v))
  /\ (forall v rest, no_template_args v = true ->
        parseTemplate fstring (v :: rest) = parseTemplate fstring [VMapString ∅]).
Proof.
  intros Hp. unfold parseTemplate. rewrite Hp. split; [reflexivity|]. split; [|split].
  - intros s ss. cbv beta iota.
    change (VString s :: (VString <$> ss)) with (VString <$> (s :: ss)).
    now rewrite parseTemplate_args_strings.
  - intros s ss v rest Hv. cbv beta iota.
    change (VString s :: ((VString <$> ss) ++ v :: rest)%list)
      with ((VString <$> (s :: ss)) ++ v :: rest)%list.
    now rewrite (parseTemplate_args_stops _ _ _ _ Hv).
  - intros v rest Hv. destruct v; try discriminate Hv; reflexivity.
Qed.

End TemplateArgs.

(** ** Escaping *)

Lemma QueryEscape_unchanged (s : string) :
  changed_by_escape s = false -> url.QueryEscape s = s.
Proof.
  unfold changed_by_escape. induction s as [|a s IH]; [reflexivity|].
  cbn [any_byte url.QueryEscape]. unfold url.escape_byte.
  destruct (url.unreserved a); [|discriminate]. cbn [negb orb].
  intros Hs. now rewrite (IH Hs).
Qed.

Lemma QueryEscape_changed (s : string) :
  changed_by_escape s = true -> url.QueryEscape s <> s.
Proof.
  unfold changed_by_escape. induction s as [|a s IH]; [discriminate|].
  cbn [any_byte url.QueryEscape]. unfold url.escape_byte.
  destruct (url.unreserved a) eqn:Eu.
  - cbn [negb orb]. intros Hs [= Heq]. now apply IH.
  - intros _. destruct (N.eqb_spec (N_of_ascii a) 32) as [E|N].
    + intros [= Ha _]. subst a. discriminate E.
    + intros Heq. apply (f_equal String.length) in Heq.
      pose proof (QueryEscape_length_le s).
      rewrite string_length_app in Heq. cbn [String.length] in Heq. lia.
Qed.

Section Unreserved.
Context `{GoLib World}.

(** X7. parameters without a byte to escape.  Escaping changes a string
    exactly when it holds a byte other than a letter, a digit and [-_.~];
    when no query parameter holds one, [prepConn] leaves the caller's slice
    as it is and puts the parameters into the URL as they are. *)
Theorem unreserved_parameters_kept :
  (forall s, url.QueryEscape s = s <-> changed_by_escape s = false)
  /\ (forall (st : State World) l qs,
        QParams (session st) = Some l ->
        heap st !! l = Some qs ->
        Forall (fun p => changed_by_escape p = false) qs ->
        prepConn st
        = (Returned (with_query (base_url (session st)) qs, None),
           with_conn auth_header st)).
Proof.
  split.
  - intros s. split.
    + intros Hs. destruct (changed_by_escape s) eqn:E; [|reflexivity].
      now apply QueryEscape_changed in E.
    + apply QueryEscape_unchanged.
  - intros st l qs Hq Hl Hqs. rewrite prepConn_spec.
    assert (map url.QueryEscape qs = qs) as Hm.
    { clear Hl. induction Hqs as [|p ps Hp _ IH]; [reflexivity|].
      cbn [map]. now rewrite (QueryEscape_unchanged _ Hp), IH. }
    unfold prepared, elems, escaped. rewrite Hq, Hl. cbn [default]. unfold id.
    rewrite Hm, insert_id by exact Hl. now destruct st.
Qed.

End Unreserved.

(** ** The constructor *)

Lemma copy_headers_union (headers h : gmap string string) :
  copy_headers headers h = headers ∪ h.
Proof.
  unfold copy_headers.
  apply (map_fold_weak_ind (fun acc m => acc = m ∪ h)).
  - now rewrite (left_id_L ∅ (∪)).
  - intros i x m r _ ->. now rewrite insert_union_l.
Qed.

(** X16. the session [NewAPIConnection] builds.  It fails exactly when the
    timeout does not parse.  Otherwise the headers of the session are the
    caller's, with [Content-Type: application/json] added where the caller
    gave none, and with [tenant] set to the tenant up to its first [=],
    whatever the caller gave for it; no token is set and the mutex is
    unlocked. *)
Theorem NewAPIConnection_session (time_ParseDuration : string -> option Z)
    hostname port username password apiVersion tenant timeout headers secure :
  match time_ParseDuration timeout with
  | None =>
      NewAPIConnection time_ParseDuration hostname port username password
        apiVersion tenant timeout headers secure
      = Returned (None, Some (ErrLib "time.ParseDuration"))
  | Some t =>
      NewAPIConnection time_ParseDuration hostname port username password
        apiVersion tenant timeout headers secure
      = Returned
          (Some ({| Mutex := false; Method := EmptyString; Endpoint := EmptyString;
                    Headers := <["tenant" := token_header tenant]>
                                 (headers ∪ {["Content-Type" := "application/json"]});
                    QParams := None; Hostname := hostname;
                    APIVersion := apiVersion; Port := port; Username := username;
                    Password := password; Secure := secure; APIToken := EmptyString;
                    Tenant := tenant |}, t), None)
  end.
Proof.
  unfold NewAPIConnection. destruct (time_ParseDuration timeout) as [t|]; [|reflexivity].
  cbv zeta. change ("tenant=" ++ tenant) with ("tenant" ++ String "=" tenant).
  destruct (Split_prefixed "tenant" tenant eq_refl) as [tl Hs].
  cbn [UpdateHeaders]. rewrite Hs. rewrite copy_headers_union. reflexivity.
Qed.


Section Invariants.
Context `{GoLib World}.

(** X13. what no call changes.  Whatever way a verb call or [Login] ends, the
    host, the port, the API version, the credentials, the secure flag and
    the tenant of the session are as before, and so is every backing array
    other than the one of the query parameters of a [Get]. *)
Theorem calls_keep_configuration fuel (st st' : State World) :
  (forall e q o, Get fuel e q st = (o, st') ->
     same_config (session st) (session st')
     /\ forall l, q <> Some l -> heap st' !! l = heap st !! l)
  /\ (forall e sens bodyp o, Put fuel e sens bodyp st = (o, st') ->
        same_config (session st) (session st') /\ heap st' = heap st)
  /\ (forall e bodyp o, Post fuel e bodyp st = (o, st') ->
        same_config (session st) (session st') /\ heap st' = heap st)
  /\ (forall e bodyp o, Delete fuel e bodyp st = (o, st') ->
        same_config (session st) (session st') /\ heap st' = heap st)
  /\ (forall o, Login fuel st = (o, st') ->
        same_config (session st) (session st') /\ heap st' = heap st).
Proof.
  assert (forall s1 s2 : State World, keeps None s1 s2 ->
            same_config (session s1) (session s2) /\ heap s2 = heap s1) as Hk.
  { intros s1 s2 [Hc Hh]. split; [exact Hc|]. apply map_eq. intros l.
    now apply Hh. }
  assert (forall m e b s r s1 o s2,
            doRequest fuel m e b None s r s1 = (o, s2) -> keeps None s1 s2) as Hd
    by (intros; eapply doRequest_keeps; eassumption).
  split; [|split; [|split; [|split]]].
  - intros e q o Hg. exact (doRequest_keeps _ _ _ _ _ _ _ _ _ _ Hg).
  - intros e sens bodyp o Hg. apply Hk. eapply body_verb_keeps; eassumption.
  - intros e bodyp o Hg. apply Hk. eapply body_verb_keeps; eassumption.
  - intros e bodyp o Hg. apply Hk. eapply body_verb_keeps; eassumption.
  - intros o Hg. apply Hk. eapply Login_with_keeps; [|exact Hg].
    intros. eapply body_verb_keeps; eassumption.
Qed.

End Invariants.

Section Denied.
Context `{GoLib World}.

(** A transport that answers every request with a 401 whose body [c] is
    named [PermissionDeniedError] and can be read twice; requests are always
    made, and the credentials always encoded. *)
Definition always_denied (c : string) : Prop :=
  (forall m u, http_NewRequest m u = true)
  /\ (forall w, exists u w1, NewUUID w = (Some u, w1))
  /\ (forall req w, exists status w',
        Client_Do req w
        = (DoResp {| StatusCode := 401; Status := status;
                     Body := [ReadOk c; ReadOk c] |}, w'))
  /\ (exists e, json_Unmarshal_ErrResponse21 c = Some e /\ Name e = permDeniedError)
  /\ (forall u p, is_Some (json_Marshal (credentials u p))).

Lemma logins_snoc (t : list Event) (e : Event) :
  logins (t ++ [e]) = (logins t + if is_EvLogin e then 1 else 0)%nat.
Proof.
  unfold logins. rewrite List.filter_app, length_app. cbn [List.filter].
  now destruct (is_EvLogin e).
Qed.

Lemma denied_attempt c m m' e b q s (st : State World) :
  always_denied c ->
  Mutex (session st) = false ->
  resolve_method m = Returned m' ->
  exists w', attempt m e b q s st
             = (Returned (Classified c (Some Retry)), sent m' e b q st w').
Proof.
  intros (Hn & Hu & Hd & (er & He & Hne) & _) Hm Hr.
  destruct (Hu (world st)) as (u & w1 & Hu1).
  destruct (Hd (request_for m' e b q st) w1) as (status & w' & Hd1).
  assert (answered m' e b q st
            (DoResp {| StatusCode := 401; Status := status;
                       Body := [ReadOk c; ReadOk c] |}) w') as Hans.
  { split; [apply Hn|]. exists u, w1. split; [exact Hu1|exact Hd1]. }
  exists w'.
  rewrite (attempt_DoResp m m' e b q s st _ w' c [ReadOk c] Hm Hr Hans eq_refl).
  unfold handleBadResponse.
  cbn [StatusCode Status Body Z.eqb Pos.eqb fst ioutil_ReadAll obind].
  rewrite He, Hne. reflexivity.
Qed.

(** X12. no bound on the logins.  Against such a transport a call does not
    come to an end: with every further level of calls allowed it logs in
    once more, and it never returns. *)
Theorem denied_call_never_returns c :
  always_denied c ->
  forall fuel m m' e b q s (st : State World),
    Mutex (session st) = false ->
    resolve_method m = Returned m' ->
    exists st', doRequest fuel m e b q s false st = (OutOfFuel, st')
                /\ logins (trace st') = (logins (trace st) + fuel)%nat.
Proof.
  intros Hd. induction fuel as [|f IH]; intros m m' e b q s st Hm Hr.
  - exists st. split; [reflexivity|lia].
  - destruct (denied_attempt c m m' e b q s st Hd Hm Hr) as (w' & Ha).
    rewrite (doRequest_retry_eq _ _ _ _ _ _ _ _ _ Ha).
    set (st1 := sent m' e b q st w') in *.
    assert (Mutex (session st1) = true) as Hl.
    { unfold st1. destruct (sent_facts m' e b q st w') as (-> & _). apply built_facts. }
    assert (trace st1 = (trace st ++ [EvDo (request_for m' e b q st)])%list) as Ht
      by apply sent_facts.
    unfold bind at 1. rewrite (relogin_with_locked _ _ Hl).
    change (Login_with (body_verb (doRequest f) "put")) with (Login f).
    assert (session (relogin_state st1)
            = set_APIToken USetToken (set_Mutex false (session st1))) as Hrs
      by now destruct st1.
    destruct Hd as (_ & _ & _ & _ & Hj).
    destruct (Hj (Username (session (relogin_state st1)))
                 (Password (session (relogin_state st1)))) as [body Hb].
    rewrite (Login_unfold f _ body); [|now rewrite Hrs|exact Hb].
    destruct (IH "put" "PUT" "login" (Some body) None true (relogin_state st1))
      as (st' & Hrun & Hcount); [now rewrite Hrs|reflexivity|].
    unfold bind at 1. rewrite Hrun. exists st'. split; [reflexivity|].
    rewrite Hcount.
    assert (trace (relogin_state st1) = (trace st1 ++ [EvLogin])%list) as Ht2
      by now destruct st1.
    rewrite Ht2, Ht, !logins_snoc. cbn. lia.
Qed.

End Denied.

Lemma Mock_answered m e b q (st : State (list DoResult)) d w' :
  world st = d :: w' -> answered m e b q st d w'.
Proof.
  intros Hw. split; [reflexivity|]. eexists _, (world st). split; [reflexivity|].
  cbn. now rewrite Hw.
Qed.

Definition one_shot_401 : DoResult :=
  DoResp {| StatusCode := 401; Status := "401 Unauthorized";
            Body := [ReadOk Mock.denied_body] |}.

Lemma unauthorized_read_once_panics_witness :
  let st := Mock.start Mock.session0 ∅ [one_shot_401] in
  fst (Get 1 "app_instances" None st) = Panicked (PanicMsg abort_message).
Proof.
  intros st.
  destruct (unauthorized_read_once_panics 0%nat "get" "GET" "app_instances" None None
              false false st "401 Unauthorized" Mock.denied_body [] eq_refl eq_refl)
    as [Hrun _].
  - apply Mock_answered. reflexivity.
  - unfold Get. now rewrite Hrun.
Defined.

Lemma transport_error_locks_session_witness :
  let st := Mock.start Mock.session0 ∅ [] in
  let st1 := snd (Get 1 "app_instances" None st) in
  fst (Get 1 "app_instances" None st)
  = Returned (EmptyString, Some (ErrLib "connection refused"))
  /\ fst (Get 1 "app_instances" None st1) = Blocked.
Proof.
  intros st st1. subst st1.
  destruct (transport_error_locks_session 0%nat "get" "GET" "app_instances" None None
              false false st "connection refused" [] eq_refl eq_refl)
    as [Hrun Hnext].
  - split; [reflexivity|]. eexists _, _. split; reflexivity.
  - unfold Get. rewrite Hrun. split; [reflexivity|].
    cbn [snd]. now rewrite Hnext.
Defined.

Lemma answered_call_returns_witness :
  let st := Mock.start Mock.session0 ∅ [Mock.ok "hello"] in
  let r := Get 1 "app_instances" None st in
  fst r = Returned ("hello", None)
  /\ Mutex (session (snd r)) = false.
Proof.
  intros st r. subst r. unfold Get.
  rewrite (answered_call_returns 0%nat "get" "GET" "app_instances" None None false false
             st {| StatusCode := 200; Status := "200 OK"; Body := [ReadOk "hello"] |}
             [] "hello" [] eq_refl eq_refl
             (Mock_answered "GET" "app_instances" None None st (Mock.ok "hello") []
                eq_refl)
             eq_refl ltac:(discriminate)).
  split; reflexivity.
Defined.

Lemma unknown_method_panics_locked_witness :
  let st := Mock.start Mock.session0 ∅ [Mock.ok "hello"] in
  doRequest 1 "PATCH" "app_instances" None None false false st
  = (Panicked (PanicMsg "Did not understand method request PATCH"),
     with_conn (set_Mutex true) st).
Proof.
  intros st. apply unknown_method_panics_locked; [reflexivity|].
  cbn. intros [E|[E|[E|[E|[]]]]]; discriminate E.
Defined.

Lemma request_of_call_witness :
  let st := Mock.start (set_APIToken "tok" Mock.session0) {[0%nat := ["a b"]]}
              [Mock.ok "hello"] in
  let st' := snd (attempt "post" "/volumes/" (Some "{}") (Some 0%nat) false st) in
  exists req, trace st' = [EvDo req]
    /\ req_method req = "POST"
    /\ req_url req = "http://10.0.0.1:7717/v2.1/volumes?a+b"
    /\ req_body req = Some "{}"
    /\ req_headers req !! "Auth-Token" = Some "tok".
Proof.
  intros st st'. subst st'.
  destruct (request_of_call "post" "POST" "/volumes/" (Some "{}") (Some 0%nat) false
              st _ _ eq_refl eq_refl (surjective_pairing _))
    as [Ht|(req & Ht & Hm & Hu & Hb & Hh)].
  - exfalso. apply (f_equal (@length Event)) in Ht. vm_compute in Ht. discriminate Ht.
  - exists req. repeat split; [exact Ht|exact Hm|exact Hu|exact Hb|].
    rewrite Hh. reflexivity.
Defined.

Definition login_body : string :=
  Mock.object [("name", "admin"); ("password", "secret")].

Lemma Mock_login_body :
  Mock.marshal (credentials "admin" "secret") = Some login_body.
Proof. vm_compute. reflexivity. Qed.

Lemma Login_answered_witness :
  let st := Mock.start Mock.session0 ∅ [Mock.ok (Mock.object [("key", "tok")])] in
  let r := Login 1 st in
  fst r = Returned None /\ APIToken (session (snd r)) = "tok"
  /\ Mutex (session (snd r)) = false.
Proof.
  intros st r. subst r.
  rewrite (Login_answered (H := Mock.lib) 0%nat st login_body
             {| StatusCode := 200; Status := "200 OK";
                Body := [ReadOk (Mock.object [("key", "tok")])] |}
             [] (Mock.object [("key", "tok")]) []
             eq_refl eq_refl Mock_login_body
             (Mock_answered "PUT" "login" (Some login_body) None st
                (Mock.ok (Mock.object [("key", "tok")])) [] eq_refl)
             eq_refl ltac:(discriminate)).
  repeat split.
Defined.

Lemma Login_transport_error_witness :
  let st := Mock.start Mock.session0 ∅ [] in
  fst (Login 1 st) = Returned (Some (ErrLib "connection refused"))
  /\ Mutex (session (snd (Login 1 st))) = true.
Proof.
  intros st.
  destruct (Login_transport_error (H := Mock.lib) 0%nat st login_body "connection refused" []
              eq_refl eq_refl Mock_login_body)
    as (Hrun & Hl & _).
  - split; [reflexivity|]. eexists _, _. split; reflexivity.
  - rewrite Hrun. split; [reflexivity|exact Hl].
Defined.

Lemma cleared_token_header_is_sent_witness :
  let st := Mock.start (set_APIToken "old" Mock.session0) ∅
              [Mock.denied; Mock.ok (Mock.object [("key", "new")])] in
  let st1 := snd (attempt "get" "volumes" None None false st) in
  let st2 := snd (attempt "put" "login" (Some login_body) None true (relogin_state st1)) in
  APIToken (session (relogin_state st1)) = EmptyString
  /\ exists req, trace st2 = (trace (relogin_state st1) ++ [EvDo req])%list
       /\ req_headers req !! "Auth-Token" = Some "old".
Proof.
  intros st st1 st2. subst st2 st1.
  destruct (cleared_token_header_is_sent "get" "volumes" None None false st
              (snd (attempt "get" "volumes" None None false st)) Mock.denied_body
              (doRequest 1))
    as (_ & Hk & _ & Hs).
  - discriminate.
  - match goal with
    | |- ?x = _ => apply (pair_eta x); vm_compute; reflexivity
    end.
  - split; [exact Hk|].
    destruct (Hs "put" "PUT" "login" (Some login_body) None true _ _ eq_refl
                (surjective_pairing _)) as [Ht|Hreq]; [|exact Hreq].
    exfalso. apply (f_equal (@length Event)) in Ht. vm_compute in Ht. discriminate Ht.
Defined.

Lemma UpdateHeaders_stores_in_turn_witness :
  UpdateHeaders ["a=1"; "b=2=3"] Mock.session0
  = (Returned None,
     set_Headers (<["b" := "2"]> (<["a" := "1"]> (Headers Mock.session0))) Mock.session0)
  /\ UpdateHeaders ["a=1"; "oops"; "c=3"] Mock.session0
     = (Panicked (PanicIndex 1 1),
        set_Headers (<["a" := "1"]> (Headers Mock.session0)) Mock.session0).
Proof.
  split.
  - apply (proj1 (UpdateHeaders_stores_in_turn ["a=1"; "b=2=3"] [] "" Mock.session0
                    ltac:(repeat constructor; discriminate))).
  - apply (proj2 (UpdateHeaders_stores_in_turn ["a=1"] ["c=3"] "oops" Mock.session0
                    ltac:(repeat constructor; discriminate))).
    reflexivity.
Defined.

Lemma parseTemplate_arguments_witness :
  parseTemplate "http://{{.hostname}}/" [] = Panicked (PanicIndex 0 0)
  /\ parseTemplate "http://{{.hostname}}/" [VString "hostname=h"; VString "verbose"]
     = parseTemplate "http://{{.hostname}}/" [VMapString {["hostname" := "h"]}]
  /\ parseTemplate "http://{{.hostname}}/" [VInt 7]
     = parseTemplate "http://{{.hostname}}/" [VMapString ∅].
Proof.
  assert (template.parse "http://{{.hostname}}/"
          = Some [template.Text "http://"; template.Field "hostname"; template.Text "/"])
    as Hp by (vm_compute; reflexivity).
  destruct (parseTemplate_arguments (H := Mock.lib) "http://{{.hostname}}/" _ Hp)
    as (H0 & H1 & _ & H3).
  split; [exact H0|]. split.
  - exact (H1 "hostname=h" ["verbose"]).
  - exact (H3 (VInt 7) [] eq_refl).
Defined.

Lemma unreserved_parameters_kept_witness :
  let st := Mock.start (set_call "GET" "volumes" (Some 0%nat) Mock.session0)
              {[0%nat := ["limit"; "offset-1"]]} [] in
  prepConn st
  = (Returned ("http://10.0.0.1:7717/v2.1/volumes?limit&offset-1", None), st).
Proof.
  intros st.
  rewrite (proj2 unreserved_parameters_kept st 0%nat ["limit"; "offset-1"]
             eq_refl ltac:(vm_compute; reflexivity)
             ltac:(repeat constructor)).
  reflexivity.
Defined.

Lemma calls_keep_configuration_witness :
  let st := Mock.start Mock.session0 {[0%nat := ["a b"]; 1%nat := ["c d"]]}
              [Mock.denied; Mock.ok (Mock.object [("key", "tok")])] in
  let st' := snd (Get 3 "volumes" (Some 0%nat) st) in
  same_config (session st) (session st')
  /\ heap st' !! 1%nat = Some ["c d"].
Proof.
  intros st st'. subst st'.
  destruct (proj1 (calls_keep_configuration 3%nat st (snd (Get 3 "volumes" (Some 0%nat) st)))
              "volumes" (Some 0%nat) _ (surjective_pairing _)) as [Hc Hh].
  split; [exact Hc|]. rewrite Hh by discriminate. reflexivity.
Defined.

Lemma Stubborn_always_denied : always_denied (H := Stubborn.lib) Mock.denied_body.
Proof.
  split; [reflexivity|]. split; [intros w; eexists _, _; reflexivity|].
  split; [intros req w; eexists _, _; reflexivity|].
  split; [eexists; split; reflexivity|].
  intros u p. unfold credentials, Spec.coerce. cbn [json_Marshal Stubborn.lib].
  destruct (String.eqb (token_header p) "true"), (String.eqb (token_header p) "false"),
    (String.eqb (token_header u) "true"), (String.eqb (token_header u) "false");
    vm_compute; eauto.
Qed.

Lemma denied_call_never_returns_witness :
  let st : State unit := {| session := Mock.session0; heap := ∅; world := tt; trace := [] |} in
  exists st', doRequest (H := Stubborn.lib) 7 "get" "volumes" None None false false st
              = (OutOfFuel, st')
    /\ logins (trace st') = 7%nat.
Proof.
  intros st.
  exact (denied_call_never_returns (H := Stubborn.lib) Mock.denied_body
           Stubborn_always_denied 7%nat "get" "GET" "volumes" None None false st
           eq_refl eq_refl).
Defined.

(** ** Parameters that do not encode *)

Section Encoding.
Context `{GoLib World}.

Lemma body_verb_not_encoded (dr : doRequest_t) verb e sens bodyp (st : State World) :
  match parseParams bodyp with
  | Returned (params, None) =>
      json_Marshal params = None ->
      body_verb dr verb e sens bodyp st
      = (Returned (EmptyString, Some (ErrLib "json.Marshal")), st)
  | Returned (_, Some err) =>
      body_verb dr verb e sens bodyp st = (Returned (EmptyString, Some err), st)
  | Panicked p => body_verb dr verb e sens bodyp st = (Panicked p, st)
  | _ => True
  end.
Proof.
  unfold body_verb, bind, lift.
  destruct (parseParams bodyp) as [[params [err|]]|p| | |]; try reflexivity; try exact I.
  now intros ->.
Qed.

(** X17.  [Put], [Post] and [Delete] encode their parameters before they
    touch the session.  With a [nil] first argument they return the error
    of the encoder; with a first argument that is neither a string nor a
    map, or a string without [=], they panic; with a map that [json.Marshal]
    refuses they return its error.  In each case the state is as before:
    the mutex was not locked and nothing was sent. *)
Theorem encoding_failure_before_lock fuel e sens (st : State World)
    (call : list Value -> M World (string * option error)) :
  In call [Put fuel e sens; Post fuel e; Delete fuel e] ->
  (forall rest,
     call (VNil :: rest) st
     = (Returned (EmptyString, Some (ErrParseParams (VNil :: rest))), st))
  /\ (forall v rest, other_shape v = true ->
        call (v :: rest) st = (Panicked (PanicTypeAssert v), st))
  /\ (forall s rest, GoStrings.Count s "=" = 0%nat ->
        call (VString s :: rest) st = (Panicked (PanicIndex 1 1), st))
  /\ (forall m rest, json_Marshal m = None ->
        call (VMap m :: rest) st
        = (Returned (EmptyString, Some (ErrLib "json.Marshal")), st)).
Proof.
  intros Hc.
  assert (exists verb sens', call = body_verb (doRequest fuel) verb e sens') as (verb & sens' & ->).
  { destruct Hc as [<-|[<-|[<-|[]]]]; eexists _, _; reflexivity. }
  split; [|split; [|split]].
  - intros rest. exact (body_verb_not_encoded _ verb e sens' (VNil :: rest) st).
  - intros v rest Hv.
    pose proof (body_verb_not_encoded (doRequest fuel) verb e sens' (v :: rest) st) as Hb.
    destruct v; try discriminate Hv; exact Hb.
  - intros s rest Hs.
    pose proof (body_verb_not_encoded (doRequest fuel) verb e sens' (VString s :: rest) st)
      as Hb.
    unfold parseParams in Hb. cbn [parseParams_loop] in Hb.
    rewrite (Split_no_sep _ _ Hs) in Hb. exact Hb.
  - intros m rest Hm.
    exact (body_verb_not_encoded _ verb e sens' (VMap m :: rest) st Hm).
Qed.

End Encoding.

Lemma encoding_failure_before_lock_witness :
  let st := Mock.start Mock.session0 ∅ [Mock.ok "{}"] in
  Post 1 "volumes" [VMap {["size" := VInt 5]}] st
  = (Returned (EmptyString, Some (ErrLib "json.Marshal")), st)
  /\ Post 1 "volumes" [VString "verbose"] st = (Panicked (PanicIndex 1 1), st).
Proof.
  intros st.
  destruct (encoding_failure_before_lock (H := Mock.lib) 1%nat "volumes" false st
              (Post 1 "volumes")) as (_ & _ & Hs & Hm).
  - right. left. reflexivity.
  - split; [apply Hm; vm_compute; reflexivity|apply Hs; reflexivity].
Defined.
